(** * herots: a TLS server bootstrap helper (herots.go)

    A shallow embedding of package [herots] and the properties of its
    server life cycle: leveled logging, configuration, key-pair loading,
    the pool of trusted client CAs, start and accept.

    The package is glue around Go's [crypto/tls], [crypto/x509],
    [encoding/pem] and [net].  Those packages are not part of the
    repository: their functions are the fields of the class [GoLibrary],
    and the operations of [herots.go] are written over any instance of it,
    statement by statement. *)

From Stdlib Require Import ZArith Strings.Byte Strings.Ascii Strings.String.
From stdpp Require Import base decidable countable gmap strings list pretty.

Local Open Scope string_scope.
Local Open Scope list_scope.
Local Open Scope Z_scope.

(** ** Go values *)

(** [[]byte]. *)
Definition bytes : Type := list byte.

#[global] Instance byte_eq_decision : EqDecision byte := Byte.byte_eq_dec.
#[global] Instance byte_countable : Countable byte :=
  inj_countable Byte.to_N Byte.of_N Byte.of_to_N.

(** The line feed of the format strings ["...\n"]. *)
Definition LF : string := String "010"%char "".

(** [strconv.Itoa]: the decimal text of an [int]. *)
Definition Itoa (n : Z) : string := pretty n.

(** An [error] value is its message ([err.Error()]); [None] is Go's [nil]
    error. *)
Definition error : Type := string.

(** [fmt.Errorf("%s\n", a)] and [fmt.Errorf("%s: %v\n", a, err)]. *)
Definition Errorf1 (a : string) : error := a +:+ LF.
Definition Errorf2 (a : string) (err : error) : error := a +:+ ": " +:+ err +:+ LF.

(** ** The parts of the Go library the package touches *)

(** [io.Writer]: a writer is known by its identity; what was written to it
    is recorded in the trace of the run (see [event]). *)
Inductive Writer : Type :=
| os_Stdout
| writer (id : N).

#[global] Instance Writer_eq_decision : EqDecision Writer.
Proof. solve_decision. Defined.

(** [tls.ClientAuthType]. *)
Inductive ClientAuthType : Type :=
| NoClientCert
| RequestClientCert
| RequireAnyClientCert
| VerifyClientCertIfGiven
| RequireAndVerifyClientCert.

(** [pem.Block]. *)
Record Block : Type := { Type_ : string; Bytes : bytes }.

(** [x509.Certificate]: the pool tells certificates apart by their raw DER
    bytes, the only field kept here. *)
Record x509_Certificate : Type := { Raw : bytes }.

#[global] Instance x509_Certificate_eq_decision : EqDecision x509_Certificate.
Proof. solve_decision. Defined.
#[global] Instance x509_Certificate_countable : Countable x509_Certificate :=
  inj_countable' Raw Build_x509_Certificate (fun c => match c with Build_x509_Certificate _ => eq_refl end).

(** [x509.CertPool] is a set of certificates: [AddCert] does nothing when
    the certificate is already in the pool. *)
Abbreviation CertPool := (gset x509_Certificate).
Definition NewCertPool : CertPool := ∅.
Definition AddCert (s : CertPool) (cert : x509_Certificate) : CertPool := s ∪ {[ cert ]}.

(** [tls.Certificate]: the chain (leaf first, each entry DER) and the
    private key. The zero value has an empty chain. *)
Record tls_Certificate : Type := {
  Certificate : list bytes;
  PrivateKey : option bytes
}.

Definition tls_Certificate_zero : tls_Certificate :=
  {| Certificate := []; PrivateKey := None |}.

(** [tls.Config], the fields [Start] fills ([Rand] is always
    [rand.Reader]). [ClientCAs] is a pointer: [None] is [nil]. *)
Record tls_Config : Type := {
  ClientAuth : ClientAuthType;
  Certificates : list tls_Certificate;
  ClientCAs : option CertPool
}.

(** [net.Listener] and [net.Conn] handles. *)
Record Listener : Type := { listener_id : N }.
Record Conn : Type := { conn_id : N; RemoteAddr : string }.

(** ** The package's data *)

(** [type Options struct]. *)
Record Options : Type := {
  Host : string;
  Port : Z;
  LogLevel : Z;
  LogDestination : option Writer;
  TLSAuthType : ClientAuthType
}.

(** [type Server struct]. Pointer and interface fields are options, [None]
    being Go's [nil]: [options] is [*Options], [certs_pool_Pool] is
    [*x509.CertPool], [listener] and [logDestination] are interfaces. *)
Record Server : Type := {
  options : option Options;
  certs_Cert : tls_Certificate;
  certs_pool_IsSet : bool;
  certs_pool_Pool : option CertPool;
  listener : option Listener;
  logDestination : option Writer
}.

(** The predefined error messages. *)
Definition LoadKeyPairError : string := "herots: load key pair error".
Definition LoadClientCaCertError : string := "herots srv: load client CA cert error".
Definition StartServerError : string := "herots srv: start tls server error".
Definition NoKeyPairLoad : string := "herots: no load key pair (use LoadKeyPair func)".
Definition AcceptConnError : string := "herots srv: connection accept error".

(** ** Runs: the server and what it did to the outside *)

(** What a run did that is visible outside the server: a text written to a
    writer, a call of [tls.Listen] with what it answered, a call of the
    listener's [Accept] with what it answered. *)
Inductive event : Type :=
| EvWrite (w : Writer) (text : string)
| EvListen (network address : string) (config : tls_Config) (answer : Listener + error)
| EvAccept (l : Listener) (answer : option Conn * option error).

Record World : Type := {
  srv : Server;
  trace : list event
}.

(** The texts written so far, oldest first. *)
Definition written (t : list event) : list (Writer * string) :=
  omap (fun e => match e with EvWrite w s => Some (w, s) | _ => None end) t.

(** The calls of [tls.Listen] so far. *)
Definition binds (t : list event) : list (string * string * tls_Config) :=
  omap (fun e => match e with EvListen n a c _ => Some (n, a, c) | _ => None end) t.

(** A Go call either returns or panics (here always a nil dereference or a
    method call on a nil interface). What was done before the panic stays
    done. *)
Inductive outcome (A : Type) : Type :=
| Ret (a : A)
| Panic.
Arguments Ret {A} a.
Arguments Panic {A}.

Definition M (A : Type) : Type := World -> outcome A * World.

#[global] Instance M_ret : MRet M := fun A a w => (Ret a, w).
#[global] Instance M_bind : MBind M := fun A B f m w =>
  match m w with
  | (Ret a, w') => f a w'
  | (Panic, w') => (Panic, w')
  end.

Definition panic {A : Type} : M A := fun w => (Panic, w).
Definition get_server : M Server := fun w => (Ret (srv w), w).
Definition put_server (h : Server) : M unit :=
  fun w => (Ret (), {| srv := h; trace := trace w |}).
Definition get_trace : M (list event) := fun w => (Ret (trace w), w).
Definition emit (e : event) : M unit :=
  fun w => (Ret (), {| srv := srv w; trace := trace w ++ [e] |}).

(** Dereference of a pointer, call through an interface. *)
Definition deref {A : Type} (p : option A) : M A :=
  match p with
  | Some a => mret a
  | None => panic
  end.

(** Assignments to the fields of [*h]. *)
Definition set_options (o : option Options) (h : Server) : Server :=
  {| options := o; certs_Cert := certs_Cert h;
     certs_pool_IsSet := certs_pool_IsSet h; certs_pool_Pool := certs_pool_Pool h;
     listener := listener h; logDestination := logDestination h |}.
Definition set_Cert (c : tls_Certificate) (h : Server) : Server :=
  {| options := options h; certs_Cert := c;
     certs_pool_IsSet := certs_pool_IsSet h; certs_pool_Pool := certs_pool_Pool h;
     listener := listener h; logDestination := logDestination h |}.
Definition set_IsSet (b : bool) (h : Server) : Server :=
  {| options := options h; certs_Cert := certs_Cert h;
     certs_pool_IsSet := b; certs_pool_Pool := certs_pool_Pool h;
     listener := listener h; logDestination := logDestination h |}.
Definition set_Pool (p : option CertPool) (h : Server) : Server :=
  {| options := options h; certs_Cert := certs_Cert h;
     certs_pool_IsSet := certs_pool_IsSet h; certs_pool_Pool := p;
     listener := listener h; logDestination := logDestination h |}.
Definition set_listener (l : option Listener) (h : Server) : Server :=
  {| options := options h; certs_Cert := certs_Cert h;
     certs_pool_IsSet := certs_pool_IsSet h; certs_pool_Pool := certs_pool_Pool h;
     listener := l; logDestination := logDestination h |}.
Definition set_logDestination (d : option Writer) (h : Server) : Server :=
  {| options := options h; certs_Cert := certs_Cert h;
     certs_pool_IsSet := certs_pool_IsSet h; certs_pool_Pool := certs_pool_Pool h;
     listener := listener h; logDestination := d |}.

(** [o.Port = p]. *)
Definition set_Port (p : Z) (o : Options) : Options :=
  {| Host := Host o; Port := p; LogLevel := LogLevel o;
     LogDestination := LogDestination o; TLSAuthType := TLSAuthType o |}.

Definition assign (f : Server -> Server) : M unit :=
  h ← get_server; put_server (f h).

(** [fmt.Fprintf(w, "herots srv: %s\n", m)]: a nil writer panics. *)
Definition Fprintf_srv (w : option Writer) (m : string) : M unit :=
  dst ← deref w;
  emit (EvWrite dst ("herots srv: " +:+ m +:+ LF)).

(** ** The operations of herots.go *)

(** [func NewServer() *Server]. *)
Definition NewServer : Server :=
  {| options := Some {| Host := "127.0.0.1"; Port := 9000; LogLevel := 0;
                        LogDestination := None;
                        TLSAuthType := RequireAnyClientCert |};
     certs_Cert := tls_Certificate_zero;
     certs_pool_IsSet := false;
     certs_pool_Pool := None;
     listener := None;
     logDestination := Some os_Stdout |}.

(** [func (h *Server) log(m string, lvl int)]. *)
Definition log (m : string) (lvl : Z) : M unit :=
  h ← get_server;
  o ← deref (options h);
  if (LogLevel o =? 0)%Z then mret ()
  else if (LogLevel o <=? lvl)%Z then Fprintf_srv (logDestination h) m
  else mret ().

(** [func (h *Server) SetMessagesDst(dst io.Writer)]. *)
Definition SetMessagesDst (dst : option Writer) : M unit :=
  assign (set_logDestination dst).

(** [func (h *Server) Config(o *Options)]. The record behind [o] is
    updated in place and [h.options] then points to it: the stored record
    is the caller's record with the port replaced. *)
Definition Config (o : option Options) : M unit :=
  r ← deref o;
  r' ← (if (Port r =? 0)%Z then
          log "port can't be '0'" 2;;
          log "set port by default (9000)" 2;;
          mret (set_Port 9000 r)
        else mret r);
  assign (set_options (Some r')).

(** *** The library functions the package calls

    [tls.X509KeyPair], [pem.Decode] and [x509.ParseCertificate] are
    functions of their arguments. [tls.Listen] and the listener's [Accept]
    answer as the machine and the network decide: they are functions of
    everything that happened so far as well. *)
Class GoLibrary : Type := {
  X509KeyPair : bytes -> bytes -> tls_Certificate + error;
  pem_Decode : bytes -> option Block * bytes;
  ParseCertificate : bytes -> x509_Certificate + error;
  tls_Listen : list event -> string -> string -> tls_Config -> Listener + error;
  Listener_Accept : list event -> Listener -> option Conn * option error
}.

Section Herots.

Context `{GoLibrary}.

(** [func (h *Server) LoadKeyPair(cert, key []byte) error]. *)
Definition LoadKeyPair (cert key : bytes) : M (option error) :=
  assign (set_Pool (Some NewCertPool));;
  match X509KeyPair cert key with
  | inr err => mret (Some (Errorf2 LoadKeyPairError err))
  | inl c =>
      assign (set_Cert c);;
      let '(pemData, _) := pem_Decode cert in
      blk ← deref pemData;
      match ParseCertificate (Bytes blk) with
      | inr err => mret (Some (Errorf2 LoadKeyPairError err))
      | inl ca =>
          h ← get_server;
          pool ← deref (certs_pool_Pool h);
          assign (set_Pool (Some (AddCert pool ca)));;
          assign (set_IsSet true);;
          log "load key pair ok" 2;;
          mret None
      end
  end.

(** [func (h *Server) AddClientCACert(cert []byte) error]. *)
Definition AddClientCACert (cert : bytes) : M (option error) :=
  let '(pemData, _) := pem_Decode cert in
  blk ← deref pemData;
  match ParseCertificate (Bytes blk) with
  | inr err => mret (Some (Errorf2 LoadClientCaCertError err))
  | inl ca =>
      h ← get_server;
      pool ← deref (certs_pool_Pool h);
      assign (set_Pool (Some (AddCert pool ca)));;
      log "load client CA cert ok" 2;;
      mret None
  end.

(** [func (h *Server) Accept() (net.Conn, error)]. *)
Definition Accept : M (option Conn * option error) :=
  h ← get_server;
  l ← deref (listener h);
  t ← get_trace;
  let '(conn, err) := Listener_Accept t l in
  emit (EvAccept l (conn, err));;
  match err with
  | Some e =>
      log ("accept conn error: " +:+ e) 3;;
      mret (conn, Some (Errorf2 AcceptConnError e))
  | None =>
      c ← deref conn;
      log ("accepted conn from " +:+ RemoteAddr c) 2;;
      mret (conn, None)
  end.

(** [func (h *Server) Start() error]. *)
Definition Start : M (option error) :=
  h ← get_server;
  if (length (Certificate (certs_Cert h)) =? 0)%nat then
    mret (Some (Errorf1 NoKeyPairLoad))
  else
    o ← deref (options h);
    let config := {| ClientAuth := TLSAuthType o;
                     Certificates := [certs_Cert h];
                     ClientCAs := certs_pool_Pool h |} in
    let service := Host o +:+ ":" +:+ Itoa (Port o) in
    t ← get_trace;
    let answer := tls_Listen t "tcp" service config in
    emit (EvListen "tcp" service config answer);;
    match answer with
    | inr err => mret (Some (Errorf2 StartServerError err))
    | inl l =>
        assign (set_listener (Some l));;
        log ("listening on " +:+ service) 2;;
        mret None
    end.

(** *** Callers

    A caller holds a server and calls its methods one after the other. *)
Inductive call : Type :=
| CallConfig (o : option Options)
| CallSetMessagesDst (dst : option Writer)
| CallLoadKeyPair (cert key : bytes)
| CallAddClientCACert (cert : bytes)
| CallStart
| CallAccept.

(** The world after a call (whatever it returned, and also when it
    panicked and the caller recovered). *)
Definition after (c : call) (w : World) : World :=
  match c with
  | CallConfig o => (Config o w).2
  | CallSetMessagesDst dst => (SetMessagesDst dst w).2
  | CallLoadKeyPair cert key => (LoadKeyPair cert key w).2
  | CallAddClientCACert cert => (AddClientCACert cert w).2
  | CallStart => (Start w).2
  | CallAccept => (Accept w).2
  end.

Definition after_all (cs : list call) (w : World) : World :=
  foldl (fun w c => after c w) w cs.

(** A caller that adds the certificates of a list, one call of
    [AddClientCACert] after the other, and keeps what each call returned. *)
Fixpoint AddClientCACerts (certs : list bytes) : M (list (option error)) :=
  match certs with
  | [] => mret []
  | cert :: certs' =>
      e ← AddClientCACert cert;
      es ← AddClientCACerts certs';
      mret (e :: es)
  end.

(** A new server that has done nothing yet, and the worlds a caller can
    bring it to. *)
Definition fresh : World := {| srv := NewServer; trace := [] |}.

Inductive reachable : World -> Prop :=
| reachable_fresh : reachable fresh
| reachable_after c w : reachable w -> reachable (after c w).

(** The certificate both [LoadKeyPair] and [AddClientCACert] add to the
    pool: the first PEM block of the input, parsed. *)
Definition first_certificate (cert : bytes) : option x509_Certificate :=
  match pem_Decode cert with
  | (Some blk, _) =>
      match ParseCertificate (Bytes blk) with
      | inl ca => Some ca
      | inr _ => None
      end
  | (None, _) => None
  end.

(** What [tls.X509KeyPair] promises of a key pair it returns: the chain
    holds at least the leaf (it fails when the input has no certificate). *)
Definition X509KeyPair_has_leaf : Prop :=
  forall cert key c, X509KeyPair cert key = inl c -> Certificate c <> [].

(** The log level in force ([h.options.LogLevel]). *)
Definition level (w : World) : option Z := LogLevel <$> options (srv w).

End Herots.

(** ** The paths through the operations

    Names for what the statements below speak of: the two messages of
    [Config], the tail [log m lvl; return a] that ends the successful path
    of an operation, the server after the assignments of [LoadKeyPair],
    and what [Start] hands to [tls.Listen]. *)

Definition port_is_zero : string := "port can't be '0'".
Definition port_by_default : string := "set port by default (9000)".

(** An operation that ends with [log m lvl; return a]. *)
Definition log_then {A : Type} (m : string) (lvl : Z) (a : A) (w : World)
    : outcome A * World :=
  match log m lvl w with
  | (Ret _, w') => (Ret a, w')
  | (Panic, w') => (Panic, w')
  end.

(** The world after the assignments of a [LoadKeyPair] that got as far as
    the key pair [c]. *)
Definition with_pair (c : tls_Certificate) (w : World) : World :=
  {| srv := set_Cert c (set_Pool (Some NewCertPool) (srv w)); trace := trace w |}.

(** ... and as far as the certificate [ca] of the first block. *)
Definition with_pair_and_pool (c : tls_Certificate) (ca : x509_Certificate) (w : World)
    : World :=
  {| srv := set_IsSet true
              (set_Pool (Some (AddCert NewCertPool ca))
                 (set_Cert c (set_Pool (Some NewCertPool) (srv w))));
     trace := trace w |}.

(** The configuration and the address [Start] hands to [tls.Listen]. *)
Definition listen_config (h : Server) (o : Options) : tls_Config :=
  {| ClientAuth := TLSAuthType o; Certificates := [certs_Cert h];
     ClientCAs := certs_pool_Pool h |}.
Definition listen_address (o : Options) : string := Host o +:+ ":" +:+ Itoa (Port o).

(** Unfolding the monad and the assignments of an operation. *)
Ltac run_op :=
  unfold assign, get_server, put_server, get_trace, emit, deref, panic,
         mbind, M_bind, mret, M_ret;
  cbn [fst snd srv trace options certs_Cert certs_pool_IsSet certs_pool_Pool
       listener logDestination set_options set_Cert set_IsSet set_Pool
       set_listener set_logDestination].

(** Closing the cases in which a call left the server as it was. *)
Ltac unchanged :=
  let E := fresh "E" in
  intros E; repeat split; first [exact E | reflexivity | cbn [snd] in *; congruence].

(** ** What a call adds to the trace

    More names for the statements below: the line a [log] call writes on a
    server, the call of [tls.Listen] a [Start] makes, the listeners
    [tls.Listen] handed out, and the error a call returned. *)

(** The line [h.log(m, lvl)] writes, if it writes one. *)
Definition log_line (m : string) (lvl : Z) (h : Server) : list event :=
  match options h, logDestination h with
  | Some o, Some d =>
      if LogLevel o =? 0 then []
      else if LogLevel o <=? lvl then [EvWrite d ("herots srv: " +:+ m +:+ LF)]
      else []
  | _, _ => []
  end.

(** The lines of several [log] calls, each a message and its severity. *)
Definition log_lines (msgs : list (string * Z)) (h : Server) : list event :=
  concat ((fun m => log_line m.1 m.2 h) <$> msgs).

(** The call of [tls.Listen] that [Start] makes on [h], if it makes one. *)
Definition listen_call (h : Server) : list (string * string * tls_Config) :=
  match Certificate (certs_Cert h), options h with
  | _ :: _, Some o => [("tcp", listen_address o, listen_config h o)]
  | _, _ => []
  end.

(** The listeners [tls.Listen] returned so far, oldest first. *)
Definition handed_out (t : list event) : list Listener :=
  omap (fun e => match e with
                 | EvListen _ _ _ (inl l) => Some l
                 | _ => None
                 end) t.

(** Closing the paths of a call on which nothing is appended, and the side
    conditions on the messages of the others. *)
Ltac messages :=
  repeat first [split | reflexivity | lia | constructor].
Ltac frame_done :=
  repeat split; intros;
  first [reflexivity | contradiction | assumption | cbn [snd] in *; congruence].
Ltac nothing_added :=
  exists []; cbn; rewrite ?app_nil_r; messages.

(** The method a call names. *)
Inductive operation : Type :=
| OpConfig
| OpSetMessagesDst
| OpLoadKeyPair
| OpAddClientCACert
| OpStart
| OpAccept.

Definition operation_of (c : call) : operation :=
  match c with
  | CallConfig _ => OpConfig
  | CallSetMessagesDst _ => OpSetMessagesDst
  | CallLoadKeyPair _ _ => OpLoadKeyPair
  | CallAddClientCACert _ => OpAddClientCACert
  | CallStart => OpStart
  | CallAccept => OpAccept
  end.

(** The method whose predefined message opens an error text. *)
Definition operation_named (e : error) : option operation :=
  if String.prefix LoadKeyPairError e then Some OpLoadKeyPair
  else if String.prefix LoadClientCaCertError e then Some OpAddClientCACert
  else if String.prefix StartServerError e then Some OpStart
  else if String.prefix NoKeyPairLoad e then Some OpStart
  else if String.prefix AcceptConnError e then Some OpAccept
  else None.

Section Errors.

Context `{GoLibrary}.

(** The error a call returned, when it returned one. *)
Definition error_of (c : call) (w : World) : option error :=
  match c with
  | CallConfig _ | CallSetMessagesDst _ => None
  | CallLoadKeyPair cert key =>
      match (LoadKeyPair cert key w).1 with Ret e => e | Panic => None end
  | CallAddClientCACert cert =>
      match (AddClientCACert cert w).1 with Ret e => e | Panic => None end
  | CallStart =>
      match (Start w).1 with Ret e => e | Panic => None end
  | CallAccept =>
      match (Accept w).1 with Ret (_, e) => e | Panic => None end
  end.

(** The call of the library a call of [Start] or [Accept] makes, with the
    answer it gets, if it makes one. No other operation calls [tls.Listen]
    or the listener. *)
Definition library_call (c : call) (w : World) : list event :=
  match c with
  | CallStart =>
      match Certificate (certs_Cert (srv w)), options (srv w) with
      | _ :: _, Some o =>
          [EvListen "tcp" (listen_address o) (listen_config (srv w) o)
             (tls_Listen (trace w) "tcp" (listen_address o) (listen_config (srv w) o))]
      | _, _ => []
      end
  | CallAccept =>
      match listener (srv w) with
      | Some l => [EvAccept l (Listener_Accept (trace w) l)]
      | None => []
      end
  | _ => []
  end.

(** [h.log(m, lvl)] returns on [h] (it does not panic). *)
Definition log_returns (lvl : Z) (h : Server) : Prop :=
  exists o, options h = Some o /\
    (LogLevel o = 0 \/ lvl < LogLevel o \/ is_Some (logDestination h)).

End Errors.

(** ** A small library to run the package on

    An instance of [GoLibrary] small enough to compute with. Its PEM has
    one-letter framing: a block is a tag ([C] for a CERTIFICATE block, [K]
    for a PRIVATE KEY block, [P] for an EC PARAMETERS block), the body,
    and a closing [;]. As in Go, [Decode] answers [nil] when the input
    does not start a block, [KeyPair] reads the chain from the CERTIFICATE
    blocks only (it skips the others) and fails when there is none or when
    the key does not match the leaf, and a certificate is DER that opens
    with the SEQUENCE tag [0x30]. *)
Module Sample.

Definition block_type (tag : byte) : option string :=
  if Byte.eqb tag "C"%byte then Some "CERTIFICATE"
  else if Byte.eqb tag "K"%byte then Some "PRIVATE KEY"
  else if Byte.eqb tag "P"%byte then Some "EC PARAMETERS"
  else None.

Fixpoint body_and_rest (data : bytes) : option (bytes * bytes) :=
  match data with
  | [] => None
  | b :: data' =>
      if Byte.eqb b ";"%byte then Some ([], data')
      else match body_and_rest data' with
           | Some (body, rest) => Some (b :: body, rest)
           | None => None
           end
  end.

Definition Decode (data : bytes) : option Block * bytes :=
  match data with
  | [] => (None, data)
  | tag :: data' =>
      match block_type tag, body_and_rest data' with
      | Some ty, Some (body, rest) => (Some {| Type_ := ty; Bytes := body |}, rest)
      | _, _ => (None, data)
      end
  end.

Fixpoint blocks (fuel : nat) (data : bytes) : list Block :=
  match fuel with
  | O => []
  | S fuel' =>
      match Decode data with
      | (Some blk, rest) => blk :: blocks fuel' rest
      | (None, _) => []
      end
  end.

Definition Parse (der : bytes) : x509_Certificate + error :=
  match der with
  | b :: _ => if Byte.eqb b x30 then inl {| Raw := der |}
              else inr "x509: malformed certificate"
  | [] => inr "x509: malformed certificate"
  end.

Definition of_type (ty : string) (data : bytes) : list bytes :=
  Bytes <$> filter (fun blk => Type_ blk = ty) (blocks (length data) data).

Definition KeyPair (certPEMBlock keyPEMBlock : bytes) : tls_Certificate + error :=
  match of_type "CERTIFICATE" certPEMBlock with
  | [] => inr "tls: failed to find any PEM data in certificate input"
  | leaf :: chain =>
      match of_type "PRIVATE KEY" keyPEMBlock with
      | [] => inr "tls: failed to find any PEM data in key input"
      | k :: _ =>
          match Parse leaf with
          | inr err => inr err
          | inl _ =>
              if decide (k = leaf)
              then inl {| Certificate := leaf :: chain; PrivateKey := Some k |}
              else inr "tls: private key does not match public key"
          end
      end
  end.

(** The addresses bound so far and the listeners handed out. *)
Definition bound (t : list event) : list (string * Listener) :=
  omap (fun e => match e with
                 | EvListen _ a _ (inl l) => Some (a, l)
                 | _ => None
                 end) t.

Definition Listen (t : list event) (network address : string) (config : tls_Config)
    : Listener + error :=
  if decide (address ∈ (bound t).*1)
  then inr ("listen tcp " +:+ address +:+ ": bind: address already in use")
  else inl {| listener_id := N.of_nat (length t) |}.

Definition AcceptOn (t : list event) (l : Listener) : option Conn * option error :=
  if decide (listener_id l ∈ listener_id <$> (bound t).*2)
  then (Some {| conn_id := N.of_nat (length t); RemoteAddr := "192.0.2.7:40312" |}, None)
  else (None, Some "use of closed network connection").

Definition library : GoLibrary :=
  {| X509KeyPair := KeyPair;
     pem_Decode := Decode;
     ParseCertificate := Parse;
     tls_Listen := Listen;
     Listener_Accept := AcceptOn |}.

(** Inputs: two key pairs, a pair that does not match, two CA
    certificates, a certificate file that opens with a parameters block,
    and a text that is no PEM at all. *)
Definition alice_cert : bytes := list_byte_of_string "C0alice;".
Definition alice_key : bytes := list_byte_of_string "K0alice;".
Definition bob_cert : bytes := list_byte_of_string "C0bob;".
Definition bob_key : bytes := list_byte_of_string "K0bob;".
Definition root_x : bytes := list_byte_of_string "C0rootX;".
Definition root_y : bytes := list_byte_of_string "C0rootY;".
Definition carol_cert : bytes := list_byte_of_string "Pprime256v1;C0carol;".
Definition carol_key : bytes := list_byte_of_string "K0carol;".
Definition no_pem : bytes := list_byte_of_string "hello".

Definition der (s : string) : x509_Certificate := {| Raw := list_byte_of_string s |}.

(** Servers: one configured at a log level, and one that has loaded the
    first key pair at level 2. *)
Definition options_at (L : Z) : Options :=
  {| Host := "127.0.0.1"; Port := 9000; LogLevel := L;
     LogDestination := None; TLSAuthType := RequireAnyClientCert |}.
Definition server_at (L : Z) : World := (Config (Some (options_at L)) fresh).2.
Definition loaded : World :=
  (@LoadKeyPair library alice_cert alice_key (server_at 2)).2.

End Sample.

(** ** Properties *)

Section Properties.

Context `{GoLibrary}.

(** *** Logging *)

Lemma bind_run {A B : Type} (m : M A) (f : A -> M B) (w : World) :
  (m ≫= f) w = match m w with
               | (Ret a, w') => f a w'
               | (Panic, w') => (Panic, w')
               end.
Proof. reflexivity. Qed.

Lemma written_app (t u : list event) : written (t ++ u) = written t ++ written u.
Proof. unfold written. apply omap_app. Qed.

Lemma binds_app (t u : list event) : binds (t ++ u) = binds t ++ binds u.
Proof. unfold binds. apply omap_app. Qed.

(** [log] unfolded: the two tests, in the order of the source. *)
Lemma log_run (m : string) (lvl : Z) (w : World) :
  log m lvl w =
    match options (srv w) with
    | None => (Panic, w)
    | Some o =>
        if (LogLevel o =? 0)%Z then (Ret (), w)
        else if (LogLevel o <=? lvl)%Z then
          match logDestination (srv w) with
          | None => (Panic, w)
          | Some d =>
              (Ret (), {| srv := srv w;
                          trace := trace w ++ [EvWrite d ("herots srv: " +:+ m +:+ LF)] |})
          end
        else (Ret (), w)
    end.
Proof.
  unfold log. rewrite bind_run. cbn [get_server].
  destruct (options (srv w)) as [o|]; [|reflexivity].
  rewrite bind_run. cbn [deref mret M_ret].
  destruct (LogLevel o =? 0)%Z; [reflexivity|].
  destruct (LogLevel o <=? lvl)%Z; [|reflexivity].
  unfold Fprintf_srv. rewrite bind_run.
  destruct (logDestination (srv w)); reflexivity.
Qed.

(** With level 0 [log] returns at its first test. *)
Lemma log_silent (m : string) (lvl : Z) (w : World) (o : Options) :
  options (srv w) = Some o -> LogLevel o = 0%Z -> log m lvl w = (Ret (), w).
Proof. intros Ho HL. rewrite log_run, Ho, HL. reflexivity. Qed.

(** [log] never touches the server, and calls nothing but the writer. *)
Lemma log_srv (m : string) (lvl : Z) (w : World) : srv (log m lvl w).2 = srv w.
Proof.
  rewrite log_run. destruct (options (srv w)) as [o|]; [|reflexivity].
  destruct (LogLevel o =? 0)%Z; [reflexivity|].
  destruct (LogLevel o <=? lvl)%Z; [|reflexivity].
  destruct (logDestination (srv w)); reflexivity.
Qed.

Lemma log_binds (m : string) (lvl : Z) (w : World) :
  binds (trace (log m lvl w).2) = binds (trace w).
Proof.
  rewrite log_run. destruct (options (srv w)) as [o|]; [|reflexivity].
  destruct (LogLevel o =? 0)%Z; [reflexivity|].
  destruct (LogLevel o <=? lvl)%Z; [|reflexivity].
  destruct (logDestination (srv w)); [|reflexivity].
  cbn [snd trace]. rewrite binds_app. cbn. apply app_nil_r.
Qed.

(** C1. What [log] does with a message of severity [lvl] under level
    [LogLevel o]: the line is written exactly when the level is not 0 and
    the LEVEL is at most the SEVERITY ([h.options.LogLevel <= lvl]); the
    server itself is left alone. So level 3 lets through the errors only
    and level 1 everything: the levels are nested the other way round than
    the comment of [Options.LogLevel] says. *)
Theorem log_writes_iff_level_le_severity (m : string) (lvl : Z) (w : World)
    (o : Options) (d : Writer) :
  options (srv w) = Some o ->
  logDestination (srv w) = Some d ->
  exists w', log m lvl w = (Ret (), w') /\ srv w' = srv w /\
    (((LogLevel o <> 0 /\ LogLevel o <= lvl)%Z /\
        trace w' = trace w ++ [EvWrite d ("herots srv: " +:+ m +:+ LF)])
     \/ (~ (LogLevel o <> 0 /\ LogLevel o <= lvl)%Z /\ trace w' = trace w)).
Proof.
  intros Ho Hd. rewrite log_run, Ho, Hd.
  destruct (Z.eqb_spec (LogLevel o) 0) as [E0|N0].
  - exists w. split; [reflexivity|]. split; [reflexivity|]. right. split; [lia|reflexivity].
  - destruct (Z.leb_spec (LogLevel o) lvl) as [Hle|Hgt].
    + eexists. split; [reflexivity|]. split; [reflexivity|]. left. split; [lia|reflexivity].
    + exists w. split; [reflexivity|]. split; [reflexivity|]. right. split; [lia|reflexivity].
Qed.

(** *** Config *)

(** [Config] unfolded, for a record with port 0. *)
Lemma Config_zero_run (o : Options) (w : World) :
  Port o = 0 ->
  Config (Some o) w =
    match log port_is_zero 2 w with
    | (Ret _, w1) =>
        match log port_by_default 2 w1 with
        | (Ret _, w2) =>
            (Ret (), {| srv := set_options (Some (set_Port 9000 o)) (srv w2);
                        trace := trace w2 |})
        | (Panic, w2) => (Panic, w2)
        end
    | (Panic, w1) => (Panic, w1)
    end.
Proof.
  intros Hp. unfold Config. rewrite bind_run. cbn [deref mret M_ret].
  rewrite bind_run, Hp. cbn [Z.eqb]. rewrite !bind_run.
  fold port_is_zero port_by_default.
  destruct (log port_is_zero 2 w) as [[[]|] w1]; [|reflexivity].
  rewrite !bind_run.
  destruct (log port_by_default 2 w1) as [[[]|] w2]; reflexivity.
Qed.

Lemma Config_nonzero_run (o : Options) (w : World) :
  Port o <> 0 ->
  Config (Some o) w =
    (Ret (), {| srv := set_options (Some o) (srv w); trace := trace w |}).
Proof.
  intros Hp. unfold Config. rewrite bind_run. cbn [deref mret M_ret].
  rewrite bind_run. destruct (Z.eqb_spec (Port o) 0) as [E|_]; [contradiction|].
  reflexivity.
Qed.

(** C2, as the code has it. For a record with port 0, [Config] stores the
    record with port 9000. It calls [log] twice with severity 2 (info),
    under the level in force before the call: when that level is 2 the two
    lines are written, one after the other; when it is 0 nothing is
    written. *)
Theorem Config_zero_port (o cur : Options) (d : Writer) (w : World) :
  options (srv w) = Some cur ->
  logDestination (srv w) = Some d ->
  Port o = 0 ->
  exists w', Config (Some o) w = (Ret (), w') /\
    options (srv w') = Some (set_Port 9000 o) /\
    Port (set_Port 9000 o) = 9000 /\
    (LogLevel cur = 2 ->
       trace w' = trace w ++ [EvWrite d ("herots srv: " +:+ port_is_zero +:+ LF);
                              EvWrite d ("herots srv: " +:+ port_by_default +:+ LF)]) /\
    (LogLevel cur = 0 -> trace w' = trace w).
Proof.
  intros Ho Hd Hp. rewrite (Config_zero_run _ _ Hp).
  rewrite (log_run port_is_zero), Ho, Hd.
  destruct (Z.eqb_spec (LogLevel cur) 0) as [E0|N0].
  - rewrite (log_run port_by_default), Ho, E0. cbn [Z.eqb].
    eexists. split; [reflexivity|]. cbn [srv trace set_options options].
    split; [reflexivity|]. split; [reflexivity|]. split; [lia|reflexivity].
  - destruct (Z.leb_spec (LogLevel cur) 2) as [Hle|Hgt].
    + rewrite (log_run port_by_default). cbn [srv trace]. rewrite Ho, Hd.
      destruct (Z.eqb_spec (LogLevel cur) 0) as [|_]; [contradiction|].
      destruct (Z.leb_spec (LogLevel cur) 2) as [_|]; [|lia].
      eexists. split; [reflexivity|]. cbn [srv trace set_options options].
      split; [reflexivity|]. split; [reflexivity|]. split; [|lia].
      intros _. rewrite <- app_assoc. reflexivity.
    + rewrite (log_run port_by_default), Ho.
      destruct (Z.eqb_spec (LogLevel cur) 0) as [|_]; [contradiction|].
      destruct (Z.leb_spec (LogLevel cur) 2) as [|_]; [lia|].
      eexists. split; [reflexivity|]. cbn [srv trace set_options options].
      split; [reflexivity|]. split; [reflexivity|]. split; lia.
Qed.

(** *** The operations unfolded, path by path *)

Lemma log_then_srv {A : Type} (m : string) (lvl : Z) (a : A) (w : World) :
  srv (log_then m lvl a w).2 = srv w.
Proof.
  unfold log_then. pose proof (log_srv m lvl w) as Hs.
  destruct (log m lvl w) as [[[]|] w']; exact Hs.
Qed.

Lemma log_then_binds {A : Type} (m : string) (lvl : Z) (a : A) (w : World) :
  binds (trace (log_then m lvl a w).2) = binds (trace w).
Proof.
  unfold log_then. pose proof (log_binds m lvl w) as Hs.
  destruct (log m lvl w) as [[[]|] w']; exact Hs.
Qed.

Lemma log_then_silent {A : Type} (m : string) (lvl : Z) (a : A) (w : World) (o : Options) :
  options (srv w) = Some o -> LogLevel o = 0 -> log_then m lvl a w = (Ret a, w).
Proof. intros Ho HL. unfold log_then. rewrite (log_silent _ _ _ _ Ho HL). reflexivity. Qed.

(** When the server has options and a writer, [log] returns. *)
Lemma log_then_returns {A : Type} (m : string) (lvl : Z) (a : A) (w : World) :
  is_Some (options (srv w)) -> is_Some (logDestination (srv w)) ->
  exists w', log_then m lvl a w = (Ret a, w') /\ srv w' = srv w.
Proof.
  intros [o Ho] [d Hd]. unfold log_then. rewrite log_run, Ho, Hd.
  destruct (LogLevel o =? 0); [eauto|].
  destruct (LogLevel o <=? lvl); eauto.
Qed.

(** [log] returns exactly when [log_returns] says so. *)
Lemma log_then_returns_iff {A : Type} (m : string) (lvl : Z) (a : A) (w : World) :
  (log_then m lvl a w).1 = Ret a <-> log_returns lvl (srv w).
Proof.
  unfold log_then, log_returns. rewrite log_run.
  destruct (options (srv w)) as [o|]; cbn [fst].
  - destruct (Z.eqb_spec (LogLevel o) 0) as [E0|N0]; cbn [fst].
    { split; [intros _; exists o; auto|reflexivity]. }
    destruct (Z.leb_spec (LogLevel o) lvl) as [Hle|Hgt].
    + destruct (logDestination (srv w)) as [d|]; cbn [fst].
      * split; [intros _; exists o; eauto|reflexivity].
      * split; [discriminate|]. intros (o' & [= <-] & [E|[E|[d E]]]); [lia|lia|discriminate].
    + cbn [fst]. split; [intros _; exists o; auto|reflexivity].
  - split; [discriminate|]. intros (o & Ho & _). discriminate.
Qed.

(** ... and then the server is as it was. *)
Lemma log_then_returns_at {A : Type} (m : string) (lvl : Z) (a : A) (w : World) :
  log_returns lvl (srv w) ->
  exists w', log_then m lvl a w = (Ret a, w') /\ srv w' = srv w.
Proof.
  intros Hr. apply (log_then_returns_iff m lvl a w) in Hr.
  pose proof (log_then_srv m lvl a w) as Hs.
  destruct (log_then m lvl a w) as [r w'].
  cbn [fst snd] in Hr, Hs. subst r. exists w'. split; [reflexivity|exact Hs].
Qed.

Lemma LoadKeyPair_run (cert key : bytes) (w : World) :
  LoadKeyPair cert key w =
    match X509KeyPair cert key with
    | inr err =>
        (Ret (Some (Errorf2 LoadKeyPairError err)),
         {| srv := set_Pool (Some NewCertPool) (srv w); trace := trace w |})
    | inl c =>
        match (pem_Decode cert).1 with
        | None => (Panic, with_pair c w)
        | Some blk =>
            match ParseCertificate (Bytes blk) with
            | inr err => (Ret (Some (Errorf2 LoadKeyPairError err)), with_pair c w)
            | inl ca => log_then "load key pair ok" 2 None (with_pair_and_pool c ca w)
            end
        end
    end.
Proof.
  unfold LoadKeyPair. run_op.
  destruct (X509KeyPair cert key) as [c|err]; [|reflexivity].
  run_op. destruct (pem_Decode cert) as [[blk|] rest]; [|reflexivity].
  run_op. destruct (ParseCertificate (Bytes blk)) as [ca|err]; [|reflexivity].
  run_op. unfold log_then, with_pair_and_pool.
  match goal with |- context [log ?m ?l ?x] => destruct (log m l x) as [[[]|] w'] end;
    reflexivity.
Qed.

Lemma AddClientCACert_run (cert : bytes) (w : World) :
  AddClientCACert cert w =
    match (pem_Decode cert).1 with
    | None => (Panic, w)
    | Some blk =>
        match ParseCertificate (Bytes blk) with
        | inr err => (Ret (Some (Errorf2 LoadClientCaCertError err)), w)
        | inl ca =>
            match certs_pool_Pool (srv w) with
            | None => (Panic, w)
            | Some pool =>
                log_then "load client CA cert ok" 2 None
                  {| srv := set_Pool (Some (AddCert pool ca)) (srv w); trace := trace w |}
            end
        end
    end.
Proof.
  unfold AddClientCACert. destruct (pem_Decode cert) as [[blk|] rest]; [|reflexivity].
  run_op. destruct (ParseCertificate (Bytes blk)) as [ca|err]; [|reflexivity].
  run_op. destruct (certs_pool_Pool (srv w)) as [pool|]; [|reflexivity].
  run_op. unfold log_then.
  match goal with |- context [log ?m ?l ?x] => destruct (log m l x) as [[[]|] w'] end;
    reflexivity.
Qed.

Lemma Start_run (w : World) :
  Start w =
    match Certificate (certs_Cert (srv w)) with
    | [] => (Ret (Some (Errorf1 NoKeyPairLoad)), w)
    | _ :: _ =>
        match options (srv w) with
        | None => (Panic, w)
        | Some o =>
            let answer :=
              tls_Listen (trace w) "tcp" (listen_address o) (listen_config (srv w) o) in
            let t := trace w ++ [EvListen "tcp" (listen_address o)
                                   (listen_config (srv w) o) answer] in
            match answer with
            | inr err =>
                (Ret (Some (Errorf2 StartServerError err)), {| srv := srv w; trace := t |})
            | inl l =>
                log_then ("listening on " +:+ listen_address o) 2 None
                  {| srv := set_listener (Some l) (srv w); trace := t |}
            end
        end
    end.
Proof.
  unfold Start. run_op.
  destruct (Certificate (certs_Cert (srv w))) as [|leaf chain]; [reflexivity|].
  cbn [length Nat.eqb]. run_op.
  destruct (options (srv w)) as [o|]; [|reflexivity].
  run_op. fold (listen_address o) (listen_config (srv w) o). cbn zeta.
  destruct (tls_Listen _ _ _ _) as [l|err]; [|reflexivity].
  run_op. unfold log_then.
  match goal with |- context [log ?m ?l ?x] => destruct (log m l x) as [[[]|] w'] end;
    reflexivity.
Qed.

Lemma Accept_run (w : World) :
  Accept w =
    match listener (srv w) with
    | None => (Panic, w)
    | Some l =>
        let answer := Listener_Accept (trace w) l in
        let w1 := {| srv := srv w; trace := trace w ++ [EvAccept l answer] |} in
        match answer.2 with
        | Some e =>
            log_then ("accept conn error: " +:+ e) 3
              (answer.1, Some (Errorf2 AcceptConnError e)) w1
        | None =>
            match answer.1 with
            | None => (Panic, w1)
            | Some c =>
                log_then ("accepted conn from " +:+ RemoteAddr c) 2 (Some c, None) w1
            end
        end
    end.
Proof.
  unfold Accept. run_op.
  destruct (listener (srv w)) as [l|]; [|reflexivity].
  run_op. cbn zeta.
  destruct (Listener_Accept (trace w) l) as [conn [e|]].
  - run_op. unfold log_then.
    match goal with |- context [log ?m ?l ?x] => destruct (log m l x) as [[[]|] w'] end;
      reflexivity.
  - run_op. destruct conn as [c|]; [|reflexivity].
    run_op. unfold log_then.
    match goal with |- context [log ?m ?l ?x] => destruct (log m l x) as [[[]|] w'] end;
      reflexivity.
Qed.

(** *** AddClientCACert on an input without a PEM block *)

(** C4. When [pem.Decode] finds no block in the input it answers [nil],
    and [AddClientCACert] dereferences that answer ([pemData.Bytes]): the
    call panics, with the server and the trace as they were. It neither
    succeeds nor returns the error built from [LoadClientCaCertError]. *)
Theorem AddClientCACert_without_block_panics (cert rest : bytes) (w : World) :
  pem_Decode cert = (None, rest) ->
  AddClientCACert cert w = (Panic, w) /\
  (forall r : option error, (AddClientCACert cert w).1 <> Ret r).
Proof.
  intros Hd. assert (Hrun : AddClientCACert cert w = (Panic, w)).
  { rewrite AddClientCACert_run, Hd. reflexivity. }
  split; [exact Hrun|]. intros r. rewrite Hrun. discriminate.
Qed.

(** *** Start without a key pair *)

(** A call leaves a server without a key pair as unbound as it was: when
    the chain is empty after the call it was empty before, the listener is
    the same, and [tls.Listen] was not called. *)
Lemma after_without_key_pair (c : call) (w : World) :
  X509KeyPair_has_leaf ->
  Certificate (certs_Cert (srv (after c w))) = [] ->
  Certificate (certs_Cert (srv w)) = [] /\
  listener (srv (after c w)) = listener (srv w) /\
  binds (trace (after c w)) = binds (trace w).
Proof.
  intros Hleaf. destruct c as [o|dst|cert key|cert| |]; unfold after.
  - (* Config *)
    destruct o as [o|]; [|unchanged].
    destruct (Z.eq_dec (Port o) 0) as [Hp|Hp].
    + rewrite (Config_zero_run _ _ Hp).
      pose proof (log_srv port_is_zero 2 w) as S1.
      pose proof (log_binds port_is_zero 2 w) as B1.
      destruct (log port_is_zero 2 w) as [[[]|] w1]; cbn [snd] in S1, B1 |- *.
      * pose proof (log_srv port_by_default 2 w1) as S2.
        pose proof (log_binds port_by_default 2 w1) as B2.
        destruct (log port_by_default 2 w1) as [[[]|] w2]; cbn [snd] in S2, B2 |- *;
          cbn [srv trace set_options certs_Cert listener]; rewrite ?S2, ?S1, ?B2, ?B1;
          unchanged.
      * rewrite S1, B1. unchanged.
    + rewrite (Config_nonzero_run _ _ Hp). cbn. unchanged.
  - (* SetMessagesDst *)
    cbn. unchanged.
  - (* LoadKeyPair *)
    rewrite LoadKeyPair_run.
    destruct (X509KeyPair cert key) as [kp|err] eqn:Hkp.
    + apply Hleaf in Hkp.
      destruct (pem_Decode cert).1 as [blk|]; [|cbn; intros E; contradiction].
      destruct (ParseCertificate (Bytes blk)) as [ca|err];
        [rewrite log_then_srv|]; cbn; intros E; contradiction.
    + cbn. unchanged.
  - (* AddClientCACert *)
    rewrite AddClientCACert_run.
    destruct (pem_Decode cert).1 as [blk|]; [|unchanged].
    destruct (ParseCertificate (Bytes blk)) as [ca|err]; [|unchanged].
    destruct (certs_pool_Pool (srv w)) as [pool|]; [|unchanged].
    rewrite log_then_srv, log_then_binds. cbn. unchanged.
  - (* Start *)
    rewrite Start_run.
    destruct (Certificate (certs_Cert (srv w))) as [|leaf chain] eqn:Hc.
    + cbn [snd]. intros _. repeat split.
    + destruct (options (srv w)) as [o|]; [|cbn [snd]; rewrite Hc; discriminate].
      cbn zeta. destruct (tls_Listen _ _ _ _) as [l|err].
      * rewrite log_then_srv. cbn. rewrite Hc. discriminate.
      * cbn. rewrite Hc. discriminate.
  - (* Accept *)
    rewrite Accept_run.
    destruct (listener (srv w)) as [l|] eqn:Hl; [|unchanged].
    cbn zeta. destruct (Listener_Accept (trace w) l) as [conn [e|]]; cbn [fst snd].
    + rewrite log_then_srv, log_then_binds. cbn [srv trace].
      rewrite binds_app. cbn. rewrite app_nil_r. unchanged.
    + destruct conn as [c|].
      * rewrite log_then_srv, log_then_binds. cbn [srv trace].
        rewrite binds_app. cbn. rewrite app_nil_r. unchanged.
      * cbn [snd srv trace]. rewrite binds_app. cbn. rewrite app_nil_r.
        unchanged.
Qed.

(** A server that a caller built with [NewServer] and that holds no key
    pair has no listener, and [tls.Listen] was never called for it. *)
Lemma reachable_without_key_pair (w : World) :
  X509KeyPair_has_leaf ->
  reachable w ->
  Certificate (certs_Cert (srv w)) = [] ->
  listener (srv w) = None /\ binds (trace w) = [].
Proof.
  intros Hleaf Hr. induction Hr as [|c w Hr IH]; intros Hc.
  - split; reflexivity.
  - destruct (after_without_key_pair c w Hleaf Hc) as (Hc' & Hl & Hb).
    rewrite Hl, Hb. apply IH, Hc'.
Qed.

(** C5. With an empty certificate chain [Start] returns the error built
    from [NoKeyPairLoad] at its first statement: the server and the trace
    are as before the call, so [tls.Listen] was not called. For a server
    built with [NewServer] there is then no listener at all: none in the
    server, and no call of [tls.Listen] in the whole run. *)
Theorem Start_without_key_pair (w : World) :
  Certificate (certs_Cert (srv w)) = [] ->
  Start w = (Ret (Some (Errorf1 NoKeyPairLoad)), w) /\
  binds (trace (Start w).2) = binds (trace w) /\
  listener (srv (Start w).2) = listener (srv w) /\
  (X509KeyPair_has_leaf -> reachable w ->
     listener (srv (Start w).2) = None /\ binds (trace (Start w).2) = []).
Proof.
  intros Hc. assert (Hrun : Start w = (Ret (Some (Errorf1 NoKeyPairLoad)), w)).
  { rewrite Start_run, Hc. reflexivity. }
  rewrite Hrun. cbn [snd]. repeat split; try reflexivity.
  - apply reachable_without_key_pair; assumption.
  - apply reachable_without_key_pair; assumption.
Qed.

(** *** Level 0 *)

(** C9. When the level in force is 0, no call writes anything: whatever
    the operation and however it ends (it returns nil, returns an error or
    panics), the texts written are those written before the call. For
    [Config] the level in force is that of the options the server holds
    when the call starts. *)
Theorem level_zero_writes_nothing (c : call) (w : World) (o : Options) :
  options (srv w) = Some o ->
  LogLevel o = 0 ->
  written (trace (after c w)) = written (trace w).
Proof.
  intros Ho HL. destruct c as [r|dst|cert key|cert| |]; unfold after.
  - (* Config *)
    destruct r as [r|]; [|reflexivity].
    destruct (Z.eq_dec (Port r) 0) as [Hp|Hp].
    + rewrite (Config_zero_run _ _ Hp).
      rewrite (log_silent port_is_zero 2 w o Ho HL).
      rewrite (log_silent port_by_default 2 w o Ho HL). reflexivity.
    + rewrite (Config_nonzero_run _ _ Hp). reflexivity.
  - (* SetMessagesDst *)
    reflexivity.
  - (* LoadKeyPair *)
    rewrite LoadKeyPair_run.
    destruct (X509KeyPair cert key) as [kp|err]; [|reflexivity].
    destruct (pem_Decode cert).1 as [blk|]; [|reflexivity].
    destruct (ParseCertificate (Bytes blk)) as [ca|err]; [|reflexivity].
    rewrite (log_then_silent _ _ _ _ o); [reflexivity|exact Ho|exact HL].
  - (* AddClientCACert *)
    rewrite AddClientCACert_run.
    destruct (pem_Decode cert).1 as [blk|]; [|reflexivity].
    destruct (ParseCertificate (Bytes blk)) as [ca|err]; [|reflexivity].
    destruct (certs_pool_Pool (srv w)) as [pool|]; [|reflexivity].
    rewrite (log_then_silent _ _ _ _ o); [reflexivity|exact Ho|exact HL].
  - (* Start *)
    rewrite Start_run.
    destruct (Certificate (certs_Cert (srv w))) as [|leaf chain]; [reflexivity|].
    rewrite Ho. cbn zeta.
    destruct (tls_Listen _ _ _ _) as [l|err].
    + rewrite (log_then_silent _ _ _ _ o); [|exact Ho|exact HL].
      cbn [snd trace]. rewrite written_app. apply app_nil_r.
    + cbn [snd trace]. rewrite written_app. apply app_nil_r.
  - (* Accept *)
    rewrite Accept_run.
    destruct (listener (srv w)) as [l|]; [|reflexivity].
    cbn zeta. destruct (Listener_Accept (trace w) l) as [conn [e|]]; cbn [fst snd].
    + rewrite (log_then_silent _ _ _ _ o); [|exact Ho|exact HL].
      cbn [snd trace]. rewrite written_app. apply app_nil_r.
    + destruct conn as [c|].
      * rewrite (log_then_silent _ _ _ _ o); [|exact Ho|exact HL].
        cbn [snd trace]. rewrite written_app. apply app_nil_r.
      * cbn [snd trace]. rewrite written_app. apply app_nil_r.
Qed.

(** *** What an error return leaves behind *)

(** A returning [log_then]: the value, the server, and at most one line. *)
Lemma log_then_inv {A : Type} (m : string) (lvl : Z) (a b : A) (w w' : World) :
  log_then m lvl a w = (Ret b, w') ->
  b = a /\ srv w' = srv w /\
  (trace w' = trace w \/
   exists d, trace w' = trace w ++ [EvWrite d ("herots srv: " +:+ m +:+ LF)]).
Proof.
  unfold log_then. rewrite log_run.
  destruct (options (srv w)) as [o|]; [|discriminate].
  destruct (LogLevel o =? 0).
  { intros [= <- <-]. auto. }
  destruct (LogLevel o <=? lvl).
  - destruct (logDestination (srv w)) as [d|]; [|discriminate].
    intros [= <- <-]. cbn [srv trace]. eauto.
  - intros [= <- <-]. auto.
Qed.

(** C3, as the code has it. An error return of [AddClientCACert] leaves
    the server and the trace as they were. An error return of [Start]
    leaves the server as it was and writes nothing. An error return of
    [Accept] leaves the server as it was; the trace gains the call of the
    listener and at most the line that reports the error. An error return
    of [LoadKeyPair] writes nothing and leaves options, listener and
    writer as they were, but the pool is the new empty pool of the first
    statement; the stored key pair is the old one when [tls.X509KeyPair]
    failed, and the new one when the failure was in the first PEM block. *)
Theorem error_returns (w w' : World) (e : error) :
  (forall cert, AddClientCACert cert w = (Ret (Some e), w') -> w' = w) /\
  (Start w = (Ret (Some e), w') ->
     srv w' = srv w /\ written (trace w') = written (trace w)) /\
  (forall conn, Accept w = (Ret (conn, Some e), w') ->
     srv w' = srv w /\
     exists l err, listener (srv w) = Some l /\ e = Errorf2 AcceptConnError err /\
       (trace w' = trace w ++ [EvAccept l (conn, Some err)] \/
        exists d, trace w' = trace w ++ [EvAccept l (conn, Some err)] ++
                    [EvWrite d ("herots srv: " +:+ ("accept conn error: " +:+ err) +:+ LF)])) /\
  (forall cert key, LoadKeyPair cert key w = (Ret (Some e), w') ->
     trace w' = trace w /\
     options (srv w') = options (srv w) /\
     listener (srv w') = listener (srv w) /\
     logDestination (srv w') = logDestination (srv w) /\
     certs_pool_Pool (srv w') = Some NewCertPool /\
     match X509KeyPair cert key with
     | inr _ => certs_Cert (srv w') = certs_Cert (srv w)
     | inl kp => certs_Cert (srv w') = kp
     end).
Proof.
  split; [|split; [|split]].
  - (* AddClientCACert *)
    intros cert. rewrite AddClientCACert_run.
    destruct (pem_Decode cert).1 as [blk|]; [|discriminate].
    destruct (ParseCertificate (Bytes blk)) as [ca|err]; [|congruence].
    destruct (certs_pool_Pool (srv w)) as [pool|]; [|discriminate].
    intros Hrun. apply log_then_inv in Hrun as [? _]. discriminate.
  - (* Start *)
    rewrite Start_run.
    destruct (Certificate (certs_Cert (srv w))) as [|leaf chain].
    { intros [= _ <-]. split; reflexivity. }
    destruct (options (srv w)) as [o|]; [|discriminate].
    cbn zeta. destruct (tls_Listen _ _ _ _) as [l|err].
    + intros Hrun. apply log_then_inv in Hrun as [? _]. discriminate.
    + intros [= _ <-]. cbn [srv trace]. split; [reflexivity|].
      rewrite written_app. apply app_nil_r.
  - (* Accept *)
    intros conn. rewrite Accept_run.
    destruct (listener (srv w)) as [l|]; [|discriminate].
    cbn zeta. destruct (Listener_Accept (trace w) l) as [c [err|]]; cbn [fst snd].
    + intros Hrun. apply log_then_inv in Hrun as ([= -> ->] & Hs & Ht).
      cbn [srv trace] in Hs, Ht. split; [exact Hs|].
      exists l, err. split; [reflexivity|]. split; [reflexivity|].
      destruct Ht as [Ht|[d Ht]]; [left; exact Ht|right].
      exists d. rewrite Ht, <- app_assoc. reflexivity.
    + destruct c as [c|]; [|discriminate].
      intros Hrun. apply log_then_inv in Hrun as [? _]. discriminate.
  - (* LoadKeyPair *)
    intros cert key. rewrite LoadKeyPair_run.
    destruct (X509KeyPair cert key) as [kp|err].
    + destruct (pem_Decode cert).1 as [blk|]; [|discriminate].
      destruct (ParseCertificate (Bytes blk)) as [ca|err].
      * intros Hrun. apply log_then_inv in Hrun as [? _]. discriminate.
      * intros [= _ <-]. cbn. repeat split.
    + intros [= _ <-]. cbn. repeat split.
Qed.

(** *** LoadKeyPair *)

Lemma first_certificate_inv (cert : bytes) (ca : x509_Certificate) :
  first_certificate cert = Some ca ->
  exists blk, (pem_Decode cert).1 = Some blk /\ ParseCertificate (Bytes blk) = inl ca.
Proof.
  unfold first_certificate. destruct (pem_Decode cert) as [[blk|] rest]; [|discriminate].
  destruct (ParseCertificate (Bytes blk)) as [c|err] eqn:Hp; [|discriminate].
  intros [= <-]. exists blk. split; [reflexivity|exact Hp].
Qed.

(** The pool right after the first certificate went in. *)
Lemma first_pool (ca : x509_Certificate) :
  AddCert NewCertPool ca = {[ ca ]}.
Proof. unfold AddCert, NewCertPool. apply (left_id_L ∅ (∪)). Qed.

(** A [LoadKeyPair] that returned nil went through every statement. *)
Lemma LoadKeyPair_nil_inv (cert key : bytes) (w w' : World) :
  LoadKeyPair cert key w = (Ret None, w') ->
  exists kp ca, X509KeyPair cert key = inl kp /\ first_certificate cert = Some ca /\
    srv w' = srv (with_pair_and_pool kp ca w).
Proof.
  rewrite LoadKeyPair_run. unfold first_certificate.
  destruct (X509KeyPair cert key) as [kp|err]; [|discriminate].
  destruct (pem_Decode cert) as [[blk|] rest]; cbn [fst]; [|discriminate].
  destruct (ParseCertificate (Bytes blk)) as [ca|err]; [|discriminate].
  intros Hrun. apply log_then_inv in Hrun as (_ & Hs & _). eauto.
Qed.

(** C6, as the code has it. When [tls.X509KeyPair] accepts the input and
    the first PEM block of the certificate input parses as a certificate,
    [LoadKeyPair] returns nil (on a server that has options and a writer),
    the stored key pair is the parsed one, with a chain that is not empty,
    and the pool holds one certificate: that of the first block. *)
Theorem LoadKeyPair_first_block_certificate (cert key : bytes) (kp : tls_Certificate)
    (ca : x509_Certificate) (w : World) :
  X509KeyPair_has_leaf ->
  X509KeyPair cert key = inl kp ->
  first_certificate cert = Some ca ->
  is_Some (options (srv w)) ->
  is_Some (logDestination (srv w)) ->
  exists w' pool, LoadKeyPair cert key w = (Ret None, w') /\
    certs_Cert (srv w') = kp /\ Certificate (certs_Cert (srv w')) <> [] /\
    certs_pool_Pool (srv w') = Some pool /\
    size pool = 1%nat /\ (forall c, c ∈ pool <-> c = ca).
Proof.
  intros Hleaf Hkp Hca Ho Hd.
  apply first_certificate_inv in Hca as (blk & Hblk & Hparse).
  rewrite LoadKeyPair_run, Hkp, Hblk, Hparse.
  destruct (log_then_returns "load key pair ok" 2 (None : option error)
              (with_pair_and_pool kp ca w) Ho Hd) as (w' & -> & Hs).
  exists w', {[ ca ]}. split; [reflexivity|]. rewrite Hs.
  cbn [with_pair_and_pool srv set_IsSet set_Pool set_Cert certs_Cert certs_pool_Pool].
  split; [reflexivity|]. split; [exact (Hleaf _ _ _ Hkp)|].
  split; [rewrite first_pool; reflexivity|].
  split; [apply size_singleton|]. intros c. apply elem_of_singleton.
Qed.

(** *** The pool under AddClientCACert *)

Lemma AddClientCACerts_cons (cert : bytes) (certs : list bytes) (w : World) :
  AddClientCACerts (cert :: certs) w =
    match AddClientCACert cert w with
    | (Ret e, w1) =>
        match AddClientCACerts certs w1 with
        | (Ret es, w2) => (Ret (e :: es), w2)
        | (Panic, w2) => (Panic, w2)
        end
    | (Panic, w1) => (Panic, w1)
    end.
Proof.
  cbn [AddClientCACerts]. rewrite bind_run.
  destruct (AddClientCACert cert w) as [[e|] w1]; [|reflexivity].
  rewrite bind_run. destruct (AddClientCACerts certs w1) as [[es|] w2]; reflexivity.
Qed.

(** No call of [AddClientCACert] takes a certificate out of the pool,
    however the call ends, and the certificate of its input is in the pool
    afterwards. *)
Lemma AddClientCACert_pool_grows (cert : bytes) (w : World) (pool : CertPool) :
  certs_pool_Pool (srv w) = Some pool ->
  exists pool', certs_pool_Pool (srv (AddClientCACert cert w).2) = Some pool' /\
                pool ⊆ pool' /\
                (forall ca, first_certificate cert = Some ca -> ca ∈ pool').
Proof.
  intros Hp. rewrite AddClientCACert_run. unfold first_certificate.
  destruct (pem_Decode cert) as [[blk|] rest]; cbn [fst];
    [|exists pool; split; [exact Hp|split; [reflexivity|discriminate]]].
  destruct (ParseCertificate (Bytes blk)) as [ca|err];
    [|exists pool; split; [exact Hp|split; [reflexivity|discriminate]]].
  rewrite Hp, log_then_srv. cbn [srv set_Pool certs_pool_Pool].
  exists (AddCert pool ca). split; [reflexivity|]. unfold AddCert.
  split; [set_solver|]. intros ca' [= <-]. set_solver.
Qed.

Lemma after_adds_pool_grows (cas : list bytes) (w : World) (pool : CertPool) :
  certs_pool_Pool (srv w) = Some pool ->
  exists pool',
    certs_pool_Pool (srv (after_all (CallAddClientCACert <$> cas) w)) = Some pool' /\
    pool ⊆ pool' /\
    (forall cert ca, cert ∈ cas -> first_certificate cert = Some ca -> ca ∈ pool').
Proof.
  revert w pool. induction cas as [|cert cas IH]; intros w pool Hp.
  - exists pool. split; [exact Hp|]. split; [reflexivity|].
    intros cert ca Hin. apply elem_of_nil in Hin. contradiction.
  - destruct (AddClientCACert_pool_grows cert w pool Hp) as (p1 & Hp1 & Hsub1 & Hin1).
    destruct (IH (after (CallAddClientCACert cert) w) p1 Hp1) as (p2 & Hp2 & Hsub2 & Hin2).
    exists p2. split; [exact Hp2|]. split; [set_solver|].
    intros cert' ca Hin Hca. apply elem_of_cons in Hin as [->|Hin].
    + apply Hsub2, Hin1, Hca.
    + exact (Hin2 cert' ca Hin Hca).
Qed.

(** C7. After a [LoadKeyPair] that returned nil and any calls of
    [AddClientCACert], however each of them ended, the pool holds the
    certificate of the first load and the certificates of the inputs
    added. A second [LoadKeyPair] that returns nil has stored the key pair
    of its own input and left in the pool the certificate of its own first
    block and nothing else: every certificate that was in the pool before
    the call and is not that one is gone. *)
Theorem LoadKeyPair_again_resets_pool (cert1 key1 cert2 key2 : bytes)
    (cas : list bytes) (w0 w1 w2 w3 : World) :
  LoadKeyPair cert1 key1 w0 = (Ret None, w1) ->
  w2 = after_all (CallAddClientCACert <$> cas) w1 ->
  LoadKeyPair cert2 key2 w2 = (Ret None, w3) ->
  exists kp2 ca1 ca2 old,
    first_certificate cert1 = Some ca1 /\
    certs_pool_Pool (srv w2) = Some old /\ ca1 ∈ old /\
    (forall cert ca, cert ∈ cas -> first_certificate cert = Some ca -> ca ∈ old) /\
    X509KeyPair cert2 key2 = inl kp2 /\
    first_certificate cert2 = Some ca2 /\
    certs_Cert (srv w3) = kp2 /\
    certs_pool_Pool (srv w3) = Some {[ ca2 ]} /\
    (forall c, c ∈ old -> c <> ca2 -> c ∉ ({[ ca2 ]} : CertPool)).
Proof.
  intros Hrun1 -> Hrun2.
  apply LoadKeyPair_nil_inv in Hrun1 as (kp1 & ca1 & _ & Hca1 & Hs1).
  apply LoadKeyPair_nil_inv in Hrun2 as (kp2 & ca2 & Hkp2 & Hca2 & Hs2).
  assert (Hp1 : certs_pool_Pool (srv w1) = Some {[ ca1 ]}).
  { rewrite Hs1. cbn [with_pair_and_pool srv set_IsSet set_Pool certs_pool_Pool].
    rewrite first_pool. reflexivity. }
  destruct (after_adds_pool_grows cas w1 _ Hp1) as (old & Hold & Hsub & Hadded).
  exists kp2, ca1, ca2, old. rewrite Hs2.
  cbn [with_pair_and_pool srv set_IsSet set_Pool set_Cert certs_Cert certs_pool_Pool].
  rewrite first_pool. repeat split; try assumption.
  - set_solver.
  - intros c _ Hne. rewrite elem_of_singleton. exact Hne.
Qed.

(** When every input holds a certificate in its first block and the server
    has a pool and is one on which [log] returns at severity 2, every call
    returns nil and the pool ends as the old pool and the certificates of
    the inputs. *)
Lemma AddClientCACerts_all (certs : list bytes) (w : World) (pool : CertPool) :
  certs_pool_Pool (srv w) = Some pool ->
  log_returns 2 (srv w) ->
  Forall (fun cert => is_Some (first_certificate cert)) certs ->
  exists w', AddClientCACerts certs w = (Ret (replicate (length certs) None), w') /\
    certs_pool_Pool (srv w') = Some (pool ∪ list_to_set (omap first_certificate certs)).
Proof.
  revert w pool. induction certs as [|cert certs IH]; intros w pool Hp Hlog Hall.
  - exists w. split; [reflexivity|]. cbn. rewrite (right_id_L ∅ (∪)). exact Hp.
  - apply Forall_cons in Hall as [[ca Hca] Hall].
    rewrite AddClientCACerts_cons, AddClientCACert_run.
    destruct (first_certificate_inv _ _ Hca) as (blk & -> & ->). rewrite Hp.
    set (w1 := {| srv := set_Pool (Some (AddCert pool ca)) (srv w); trace := trace w |}).
    destruct (log_then_returns_at "load client CA cert ok" 2 (None : option error) w1 Hlog)
      as (w1' & -> & Hs).
    destruct (IH w1' (AddCert pool ca)) as (w2 & -> & Hp2).
    + rewrite Hs. reflexivity.
    + rewrite Hs. exact Hlog.
    + exact Hall.
    + exists w2. split; [reflexivity|]. rewrite Hp2. f_equal.
      cbn [omap list_omap]. rewrite Hca. cbn [list_to_set foldr].
      unfold AddCert. symmetry. apply (assoc_L (∪)).
Qed.

Lemma length_omap_all {A B : Type} (f : A -> option B) (l : list A) :
  Forall (fun a => is_Some (f a)) l -> length (omap f l) = length l.
Proof.
  induction 1 as [|a l [b Hb] _ IH]; [reflexivity|].
  cbn. rewrite Hb. cbn. rewrite IH. reflexivity.
Qed.

(** C8, as the code has it. After a [LoadKeyPair] that returned nil, adding
    inputs that each hold a certificate in the first block: every call
    returns nil, and the pool holds the certificate of the key pair and
    the certificates added. When these are all different, from one another
    and from that of the key pair, the pool has one entry more than there
    were inputs. Adding the same inputs in another order ends with the
    same pool. *)
Theorem AddClientCACerts_pool (cert key : bytes) (certs : list bytes) (w w1 : World) :
  LoadKeyPair cert key w = (Ret None, w1) ->
  Forall (fun c => is_Some (first_certificate c)) certs ->
  exists ca0 w2 pool,
    first_certificate cert = Some ca0 /\
    AddClientCACerts certs w1 = (Ret (replicate (length certs) None), w2) /\
    certs_pool_Pool (srv w2) = Some pool /\
    (forall c, c ∈ pool <-> c = ca0 \/ c ∈ omap first_certificate certs) /\
    (NoDup (ca0 :: omap first_certificate certs) -> size pool = S (length certs)) /\
    (forall certs', certs' ≡ₚ certs ->
       exists w2', AddClientCACerts certs' w1 = (Ret (replicate (length certs') None), w2') /\
                   certs_pool_Pool (srv w2') = Some pool).
Proof.
  intros Hrun Hall.
  assert (Hlog : log_returns 2 (srv w1)).
  { pose proof Hrun as Hrun'.
    apply LoadKeyPair_nil_inv in Hrun' as (kp & ca & _ & _ & Hs). rewrite Hs.
    rewrite LoadKeyPair_run in Hrun.
    destruct (X509KeyPair cert key) as [kp'|]; [|discriminate].
    destruct (pem_Decode cert).1 as [blk|]; [|discriminate].
    destruct (ParseCertificate (Bytes blk)) as [ca'|]; [|discriminate].
    apply (f_equal fst) in Hrun. cbn [fst] in Hrun.
    apply log_then_returns_iff in Hrun. exact Hrun. }
  apply LoadKeyPair_nil_inv in Hrun as (kp & ca0 & _ & Hca0 & Hs).
  assert (Hp1 : certs_pool_Pool (srv w1) = Some {[ ca0 ]}).
  { rewrite Hs. cbn [with_pair_and_pool srv set_IsSet set_Pool certs_pool_Pool].
    rewrite first_pool. reflexivity. }
  destruct (AddClientCACerts_all certs w1 _ Hp1 Hlog Hall) as (w2 & Hrun2 & Hp2).
  exists ca0, w2, (list_to_set (ca0 :: omap first_certificate certs)).
  split; [exact Hca0|]. split; [exact Hrun2|]. split; [exact Hp2|].
  split; [|split].
  - intros c. rewrite elem_of_list_to_set, elem_of_cons. reflexivity.
  - intros Hnd. rewrite (size_list_to_set _ Hnd). cbn [length].
    rewrite (length_omap_all _ _ Hall). reflexivity.
  - intros certs' Hperm.
    assert (Hall' : Forall (fun c => is_Some (first_certificate c)) certs')
      by (rewrite Hperm; exact Hall).
    destruct (AddClientCACerts_all certs' w1 _ Hp1 Hlog Hall') as (w2' & Hrun' & Hp').
    exists w2'. split; [exact Hrun'|]. rewrite Hp'. f_equal.
    rewrite Hperm. reflexivity.
Qed.

(** *** A key pair whose first PEM block is no certificate *)

Lemma StartServerError_is_not_NoKeyPairLoad (err : error) :
  Errorf2 StartServerError err <> Errorf1 NoKeyPairLoad.
Proof. unfold Errorf2, Errorf1, StartServerError, NoKeyPairLoad. cbn. discriminate. Qed.

(** C10. When [tls.X509KeyPair] accepts the input but the first PEM block
    of the certificate input does not parse as a certificate,
    [LoadKeyPair] returns the error built from [LoadKeyPairError], after
    it has stored the key pair and replaced the pool by an empty one. A
    [Start] that follows does not return the [NoKeyPairLoad] error: it
    goes on to [tls.Listen], with that key pair and the empty pool as
    [ClientCAs]. *)
Theorem LoadKeyPair_first_block_not_certificate (cert key : bytes)
    (kp : tls_Certificate) (blk : Block) (rest : bytes) (err : error) (w : World) :
  X509KeyPair_has_leaf ->
  X509KeyPair cert key = inl kp ->
  pem_Decode cert = (Some blk, rest) ->
  ParseCertificate (Bytes blk) = inr err ->
  exists w', LoadKeyPair cert key w = (Ret (Some (Errorf2 LoadKeyPairError err)), w') /\
    certs_Cert (srv w') = kp /\
    certs_pool_Pool (srv w') = Some ∅ /\
    (Start w').1 <> Ret (Some (Errorf1 NoKeyPairLoad)) /\
    (forall o, options (srv w') = Some o ->
       binds (trace (Start w').2) =
         binds (trace w') ++ [("tcp", listen_address o,
                               {| ClientAuth := TLSAuthType o;
                                  Certificates := [kp];
                                  ClientCAs := Some ∅ |})]).
Proof.
  intros Hleaf Hkp Hblk Hparse. exists (with_pair kp w).
  split; [rewrite LoadKeyPair_run, Hkp, Hblk; cbn [fst]; rewrite Hparse; reflexivity|].
  split; [reflexivity|]. split; [reflexivity|].
  rewrite Start_run. cbn [with_pair srv set_Cert certs_Cert].
  destruct (Certificate kp) as [|leaf chain] eqn:Hchain.
  { exfalso. exact (Hleaf _ _ _ Hkp Hchain). }
  cbn [set_Cert set_Pool options]. split.
  - destruct (options (srv w)) as [o|]; [|discriminate].
    cbn zeta. destruct (tls_Listen _ _ _ _) as [l|e]; cbn [fst].
    + unfold log_then. destruct (log _ _ _) as [[[]|] w'']; discriminate.
    + intros E. apply (StartServerError_is_not_NoKeyPairLoad e). congruence.
  - intros o Ho. rewrite Ho. cbn zeta. destruct (tls_Listen _ _ _ _) as [l|e].
    + rewrite log_then_binds. cbn [trace]. rewrite binds_app. reflexivity.
    + cbn [snd trace]. rewrite binds_app. reflexivity.
Qed.

End Properties.

(** ** The properties at work on the small library *)

Lemma Sample_X509KeyPair_has_leaf : @X509KeyPair_has_leaf Sample.library.
Proof.
  intros cert key c. cbn. unfold Sample.KeyPair.
  destruct (Sample.of_type "CERTIFICATE" cert) as [|leaf chain]; [discriminate|].
  destruct (Sample.of_type "PRIVATE KEY" key) as [|k ks]; [discriminate|].
  destruct (Sample.Parse leaf); [|discriminate].
  destruct (decide (k = leaf)); [|discriminate].
  intros [= <-]. discriminate.
Qed.

(** C1 at level 3: an info message (severity 2) is not written. *)
Lemma log_drops_info_at_level_3 :
  options (srv (Sample.server_at 3)) = Some (Sample.options_at 3) /\
  logDestination (srv (Sample.server_at 3)) = Some os_Stdout /\
  written (trace (log "load key pair ok" 2 (Sample.server_at 3)).2) = [].
Proof.
  split; [reflexivity|]. split; [reflexivity|].
  destruct (log_writes_iff_level_le_severity "load key pair ok" 2 (Sample.server_at 3)
              (Sample.options_at 3) os_Stdout eq_refl eq_refl)
    as (w' & Hrun & _ & [[[_ Hle] _]|[_ Ht]]).
  - cbn in Hle. lia.
  - rewrite Hrun. cbn [snd]. rewrite Ht. reflexivity.
Defined.

(** C2: with level 2 the call writes two lines, not one. *)
Lemma Config_zero_port_writes_two_lines :
  Port (set_Port 0 (Sample.options_at 2)) = 0 /\
  level (Sample.server_at 2) = Some 2 /\
  LogLevel (set_Port 0 (Sample.options_at 2)) = 2 /\
  written (trace (Sample.server_at 2)) = [] /\
  written (trace (Config (Some (set_Port 0 (Sample.options_at 2))) (Sample.server_at 2)).2) =
    [(os_Stdout, "herots srv: port can't be '0'" +:+ LF);
     (os_Stdout, "herots srv: set port by default (9000)" +:+ LF)].
Proof. repeat split. Qed.

Lemma Config_zero_port_at_level_2 :
  options (srv (Sample.server_at 2)) = Some (Sample.options_at 2) /\
  logDestination (srv (Sample.server_at 2)) = Some os_Stdout /\
  Port (set_Port 0 (Sample.options_at 2)) = 0 /\
  exists w', Config (Some (set_Port 0 (Sample.options_at 2))) (Sample.server_at 2) = (Ret (), w') /\
    (Port <$> options (srv w')) = Some 9000 /\
    length (written (trace w')) = 2%nat.
Proof.
  split; [reflexivity|]. split; [reflexivity|]. split; [reflexivity|].
  destruct (Config_zero_port (set_Port 0 (Sample.options_at 2)) (Sample.options_at 2)
              os_Stdout (Sample.server_at 2) eq_refl eq_refl eq_refl)
    as (w' & Hrun & Ho & _ & H2 & _).
  exists w'. split; [exact Hrun|]. split; [rewrite Ho; reflexivity|].
  rewrite (H2 eq_refl). reflexivity.
Defined.

(** C3: a server that holds the first key pair and an added CA; a
    [LoadKeyPair] with a key that does not match returns the error, and
    the pool, which held two certificates, is empty. *)
Lemma failed_LoadKeyPair_empties_pool :
  let w := (@AddClientCACert Sample.library Sample.root_x Sample.loaded).2 in
  let r := @LoadKeyPair Sample.library Sample.alice_cert Sample.bob_key w in
  r.1 = Ret (Some (Errorf2 LoadKeyPairError "tls: private key does not match public key")) /\
  elements <$> certs_pool_Pool (srv w) = Some [Sample.der "0alice"; Sample.der "0rootX"] /\
  elements <$> certs_pool_Pool (srv r.2) = Some [] /\
  certs_Cert (srv r.2) = certs_Cert (srv w).
Proof. vm_compute. repeat split. Qed.

(** C3 on the four operations: an input whose first block is no
    certificate, a start on an address in use, an accept on a listener the
    network does not know, a key that does not match. *)
Lemma error_returns_at_work :
  let busy := (@Start Sample.library Sample.loaded).2 in
  let closed := {| srv := set_listener (Some {| listener_id := 7 |}) NewServer; trace := [] |} in
  (@AddClientCACert Sample.library Sample.carol_cert Sample.loaded).2 = Sample.loaded /\
  srv (@Start Sample.library busy).2 = srv busy /\
  srv (@Accept Sample.library closed).2 = srv closed /\
  certs_pool_Pool (srv (@LoadKeyPair Sample.library Sample.alice_cert Sample.bob_key
                          Sample.loaded).2) = Some NewCertPool.
Proof.
  cbv zeta. split; [|split; [|split]].
  - assert (Hr : (@AddClientCACert Sample.library Sample.carol_cert Sample.loaded).1 =
                 Ret (Some (Errorf2 LoadClientCaCertError "x509: malformed certificate")))
      by (vm_compute; reflexivity).
    destruct (@AddClientCACert Sample.library Sample.carol_cert Sample.loaded)
      as [r w'] eqn:Hrun.
    cbn [fst] in Hr. subst r. cbn [snd].
    exact (proj1 (@error_returns Sample.library Sample.loaded w' _) _ Hrun).
  - set (busy := (@Start Sample.library Sample.loaded).2).
    assert (Hr : (@Start Sample.library busy).1 =
                 Ret (Some (Errorf2 StartServerError
                              "listen tcp 127.0.0.1:9000: bind: address already in use")))
      by (vm_compute; reflexivity).
    destruct (@Start Sample.library busy) as [r w'] eqn:Hrun.
    cbn [fst] in Hr. subst r. cbn [snd].
    exact (proj1 (proj1 (proj2 (@error_returns Sample.library busy w' _)) Hrun)).
  - set (closed := {| srv := set_listener (Some {| listener_id := 7 |}) NewServer;
                      trace := [] |}).
    assert (Hr : (@Accept Sample.library closed).1 =
                 Ret (None, Some (Errorf2 AcceptConnError
                                    "use of closed network connection")))
      by (vm_compute; reflexivity).
    destruct (@Accept Sample.library closed) as [r w'] eqn:Hrun.
    cbn [fst] in Hr. subst r. cbn [snd].
    exact (proj1 (proj1 (proj2 (proj2 (@error_returns Sample.library closed w' _))) _ Hrun)).
  - assert (Hr : (@LoadKeyPair Sample.library Sample.alice_cert Sample.bob_key
                    Sample.loaded).1 =
                 Ret (Some (Errorf2 LoadKeyPairError
                              "tls: private key does not match public key")))
      by (vm_compute; reflexivity).
    destruct (@LoadKeyPair Sample.library Sample.alice_cert Sample.bob_key Sample.loaded)
      as [r w'] eqn:Hrun.
    cbn [fst] in Hr. subst r. cbn [snd].
    destruct (proj2 (proj2 (proj2 (@error_returns Sample.library Sample.loaded w' _)))
                _ _ Hrun) as (_ & _ & _ & _ & Hp & _).
    exact Hp.
Defined.

(** C4: a text without any PEM block makes [AddClientCACert] panic. *)
Lemma AddClientCACert_no_pem_panics :
  @pem_Decode Sample.library Sample.no_pem = (None, Sample.no_pem) /\
  @AddClientCACert Sample.library Sample.no_pem Sample.loaded = (Panic, Sample.loaded).
Proof.
  split; [reflexivity|].
  exact (proj1 (@AddClientCACert_without_block_panics Sample.library
                  Sample.no_pem Sample.no_pem Sample.loaded eq_refl)).
Defined.

(** C5: after a [LoadKeyPair] that failed, [Start] refuses and nothing
    listens. *)
Lemma Start_after_failed_load :
  let w := @after Sample.library (CallLoadKeyPair Sample.alice_cert Sample.bob_key) fresh in
  Certificate (certs_Cert (srv w)) = [] /\
  @Start Sample.library w = (Ret (Some (Errorf1 NoKeyPairLoad)), w) /\
  listener (srv (@Start Sample.library w).2) = None /\
  binds (trace (@Start Sample.library w).2) = [].
Proof.
  cbv zeta.
  set (w := @after Sample.library (CallLoadKeyPair Sample.alice_cert Sample.bob_key) fresh).
  assert (Hc : Certificate (certs_Cert (srv w)) = []) by reflexivity.
  destruct (@Start_without_key_pair Sample.library w Hc) as (Hrun & _ & _ & Hreach).
  split; [exact Hc|]. split; [exact Hrun|].
  apply Hreach; [exact Sample_X509KeyPair_has_leaf|].
  apply reachable_after, reachable_fresh.
Defined.

(** C6: [KeyPair] accepts a certificate file that opens with a parameters
    block (it reads the CERTIFICATE block behind it), and [LoadKeyPair]
    returns an error for it. *)
Lemma LoadKeyPair_refuses_accepted_pair :
  @X509KeyPair Sample.library Sample.carol_cert Sample.carol_key =
    inl {| Certificate := [list_byte_of_string "0carol"];
           PrivateKey := Some (list_byte_of_string "0carol") |} /\
  (@LoadKeyPair Sample.library Sample.carol_cert Sample.carol_key fresh).1 =
    Ret (Some (Errorf2 LoadKeyPairError "x509: malformed certificate")).
Proof. vm_compute. split; reflexivity. Qed.

Lemma LoadKeyPair_alice :
  @X509KeyPair Sample.library Sample.alice_cert Sample.alice_key =
    inl {| Certificate := [list_byte_of_string "0alice"];
           PrivateKey := Some (list_byte_of_string "0alice") |} /\
  @first_certificate Sample.library Sample.alice_cert = Some (Sample.der "0alice") /\
  exists w' pool,
    @LoadKeyPair Sample.library Sample.alice_cert Sample.alice_key fresh = (Ret None, w') /\
    certs_pool_Pool (srv w') = Some pool /\ size pool = 1%nat /\
    Sample.der "0alice" ∈ pool.
Proof.
  split; [reflexivity|]. split; [reflexivity|].
  destruct (@LoadKeyPair_first_block_certificate Sample.library
              Sample.alice_cert Sample.alice_key _ (Sample.der "0alice") fresh
              Sample_X509KeyPair_has_leaf eq_refl eq_refl
              (ex_intro _ _ eq_refl) (ex_intro _ _ eq_refl))
    as (w' & pool & Hrun & _ & _ & Hp & Hsize & Hin).
  exists w', pool. split; [exact Hrun|]. split; [exact Hp|]. split; [exact Hsize|].
  apply Hin. reflexivity.
Defined.

(** C7: alice's key pair, two CAs, then bob's key pair: the pool holds
    bob's certificate only. *)
Lemma LoadKeyPair_bob_after_alice :
  let w1 := (@LoadKeyPair Sample.library Sample.alice_cert Sample.alice_key fresh).2 in
  let w2 := @after_all Sample.library
              (CallAddClientCACert <$> [Sample.root_x; Sample.root_y]) w1 in
  let w3 := (@LoadKeyPair Sample.library Sample.bob_cert Sample.bob_key w2).2 in
  size <$> certs_pool_Pool (srv w2) = Some 3%nat /\
  certs_pool_Pool (srv w3) = Some {[ Sample.der "0bob" ]} /\
  Certificate (certs_Cert (srv w3)) = [list_byte_of_string "0bob"].
Proof.
  cbv zeta.
  set (w1 := (@LoadKeyPair Sample.library Sample.alice_cert Sample.alice_key fresh).2).
  set (w2 := @after_all Sample.library
               (CallAddClientCACert <$> [Sample.root_x; Sample.root_y]) w1).
  set (w3 := (@LoadKeyPair Sample.library Sample.bob_cert Sample.bob_key w2).2).
  split; [vm_compute; reflexivity|].
  assert (H1 : @LoadKeyPair Sample.library Sample.alice_cert Sample.alice_key fresh
               = (Ret None, w1)) by (vm_compute; reflexivity).
  assert (H3 : @LoadKeyPair Sample.library Sample.bob_cert Sample.bob_key w2
               = (Ret None, w3)) by (vm_compute; reflexivity).
  destruct (@LoadKeyPair_again_resets_pool Sample.library _ _ _ _
              [Sample.root_x; Sample.root_y] fresh w1 w2 w3 H1 eq_refl H3)
    as (kp2 & ca1 & ca2 & old & _ & _ & _ & _ & Hkp & Hca & Hc & Hp & _).
  assert (Eca : Some ca2 = Some (Sample.der "0bob")) by (rewrite <- Hca; reflexivity).
  injection Eca as Eca.
  assert (Ekp : @inl _ error kp2 = inl {| Certificate := [list_byte_of_string "0bob"];
                                          PrivateKey := Some (list_byte_of_string "0bob") |})
    by (rewrite <- Hkp; reflexivity).
  injection Ekp as Ekp. apply (f_equal Certificate) in Ekp. cbn [Certificate] in Ekp.
  rewrite Hp, Hc, Eca. split; [reflexivity|exact Ekp].
Defined.

(** C8: the server's own certificate added as a client CA: one input,
    and the pool still has one entry. *)
Lemma AddClientCACert_of_own_certificate :
  let r := @AddClientCACerts Sample.library [Sample.alice_cert] Sample.loaded in
  r.1 = Ret [None] /\
  size <$> certs_pool_Pool (srv Sample.loaded) = Some 1%nat /\
  size <$> certs_pool_Pool (srv r.2) = Some 1%nat.
Proof. vm_compute. repeat split. Qed.

(** C8: two CAs after alice's key pair make three entries, in either
    order. *)
Lemma AddClientCACerts_two_roots :
  exists pool,
    certs_pool_Pool (srv (@AddClientCACerts Sample.library
                            [Sample.root_x; Sample.root_y] Sample.loaded).2) = Some pool /\
    size pool = 3%nat /\
    certs_pool_Pool (srv (@AddClientCACerts Sample.library
                            [Sample.root_y; Sample.root_x] Sample.loaded).2) = Some pool.
Proof.
  assert (Hrun : @LoadKeyPair Sample.library Sample.alice_cert Sample.alice_key
                   (Sample.server_at 2) = (Ret None, Sample.loaded))
    by (vm_compute; reflexivity).
  assert (Hall : Forall (fun c => is_Some (@first_certificate Sample.library c))
                   [Sample.root_x; Sample.root_y])
    by (repeat constructor; eexists; reflexivity).
  destruct (@AddClientCACerts_pool Sample.library _ _ [Sample.root_x; Sample.root_y]
              (Sample.server_at 2) Sample.loaded Hrun Hall)
    as (ca0 & w2 & pool & Hca0 & Hadd & Hp & _ & Hsize & Horder).
  exists pool. rewrite Hadd. cbn [snd]. split; [exact Hp|]. split.
  - apply Hsize.
    assert (E : Some ca0 = Some (Sample.der "0alice")) by (rewrite <- Hca0; reflexivity).
    injection E as ->. apply (bool_decide_unpack _). vm_compute. exact I.
  - destruct (Horder [Sample.root_y; Sample.root_x]) as (w2' & Hadd' & Hp').
    + apply perm_swap.
    + rewrite Hadd'. exact Hp'.
Defined.

(** C9: at level 0 a successful [LoadKeyPair] writes nothing. *)
Lemma LoadKeyPair_at_level_0_is_silent :
  options (srv fresh) = Some (Sample.options_at 0) /\
  LogLevel (Sample.options_at 0) = 0 /\
  (@LoadKeyPair Sample.library Sample.alice_cert Sample.alice_key fresh).1 = Ret None /\
  written (trace (@after Sample.library
                    (CallLoadKeyPair Sample.alice_cert Sample.alice_key) fresh)) = [].
Proof.
  split; [reflexivity|]. split; [reflexivity|]. split; [vm_compute; reflexivity|].
  exact (@level_zero_writes_nothing Sample.library
           (CallLoadKeyPair Sample.alice_cert Sample.alice_key) fresh
           (Sample.options_at 0) eq_refl eq_refl).
Defined.

(** C10: carol's certificate file opens with a parameters block. The key
    pair is stored although [LoadKeyPair] returned an error, and [Start]
    listens with an empty pool. *)
Lemma Start_after_carol :
  let r := @LoadKeyPair Sample.library Sample.carol_cert Sample.carol_key
             (Sample.server_at 2) in
  r.1 = Ret (Some (Errorf2 LoadKeyPairError "x509: malformed certificate")) /\
  Certificate (certs_Cert (srv r.2)) = [list_byte_of_string "0carol"] /\
  (@Start Sample.library r.2).1 = Ret None /\
  (@Start Sample.library r.2).1 <> Ret (Some (Errorf1 NoKeyPairLoad)) /\
  binds (trace (@Start Sample.library r.2).2) =
    [("tcp", "127.0.0.1:9000",
      {| ClientAuth := RequireAnyClientCert;
         Certificates := [{| Certificate := [list_byte_of_string "0carol"];
                             PrivateKey := Some (list_byte_of_string "0carol") |}];
         ClientCAs := Some ∅ |})].
Proof.
  cbv zeta.
  destruct (@LoadKeyPair_first_block_not_certificate Sample.library
              Sample.carol_cert Sample.carol_key _ _ _ _ (Sample.server_at 2)
              Sample_X509KeyPair_has_leaf eq_refl eq_refl eq_refl)
    as (w' & Hrun & Hc & Hp & Hne & Hb).
  rewrite Hrun. cbn [fst snd]. split; [reflexivity|].
  split; [rewrite Hc; reflexivity|].
  split; [apply (f_equal snd) in Hrun; cbn [snd] in Hrun; subst w'; vm_compute; reflexivity|].
  split; [exact Hne|].
  rewrite (Hb (Sample.options_at 2)).
  - apply (f_equal snd) in Hrun. cbn [snd] in Hrun. subst w'. reflexivity.
  - apply (f_equal snd) in Hrun. cbn [snd] in Hrun. subst w'. reflexivity.
Defined.

(** ** More properties of the operations *)

Section Operations.

Context `{GoLibrary}.

(** *** What [log] adds *)

Lemma log_trace (m : string) (lvl : Z) (w : World) :
  trace (log m lvl w).2 = trace w ++ log_line m lvl (srv w).
Proof.
  rewrite log_run. unfold log_line.
  destruct (options (srv w)) as [o|]; [|symmetry; apply app_nil_r].
  destruct (logDestination (srv w)) as [d|].
  - destruct (LogLevel o =? 0); [symmetry; apply app_nil_r|].
    destruct (LogLevel o <=? lvl); [reflexivity|symmetry; apply app_nil_r].
  - destruct (LogLevel o =? 0); [symmetry; apply app_nil_r|].
    destruct (LogLevel o <=? lvl); symmetry; apply app_nil_r.
Qed.

Lemma log_then_trace {A : Type} (m : string) (lvl : Z) (a : A) (w : World) :
  trace (log_then m lvl a w).2 = trace w ++ log_line m lvl (srv w).
Proof.
  unfold log_then. pose proof (log_trace m lvl w) as Ht.
  destruct (log m lvl w) as [[[]|] w']; exact Ht.
Qed.

(** The line depends on the options and the writer of the server only. *)
Lemma log_line_frame (m : string) (lvl : Z) (h h' : Server) :
  options h' = options h -> logDestination h' = logDestination h ->
  log_line m lvl h' = log_line m lvl h.
Proof. unfold log_line. intros -> ->. reflexivity. Qed.

Lemma log_line_cases (m : string) (lvl : Z) (h : Server) :
  log_line m lvl h = [] \/
  exists o d, options h = Some o /\ logDestination h = Some d /\
    LogLevel o <> 0 /\ LogLevel o <= lvl /\
    log_line m lvl h = [EvWrite d ("herots srv: " +:+ m +:+ LF)].
Proof.
  unfold log_line. destruct (options h) as [o|]; [|left; reflexivity].
  destruct (logDestination h) as [d|]; [|left; reflexivity].
  destruct (Z.eqb_spec (LogLevel o) 0); [left; reflexivity|].
  destruct (Z.leb_spec (LogLevel o) lvl); [|left; reflexivity].
  right. exists o, d. auto.
Qed.

Lemma binds_log_line (m : string) (lvl : Z) (h : Server) : binds (log_line m lvl h) = [].
Proof. destruct (log_line_cases m lvl h) as [->|(o & d & _ & _ & _ & _ & ->)]; reflexivity. Qed.

Lemma handed_out_log_line (m : string) (lvl : Z) (h : Server) :
  handed_out (log_line m lvl h) = [].
Proof. destruct (log_line_cases m lvl h) as [->|(o & d & _ & _ & _ & _ & ->)]; reflexivity. Qed.

Lemma handed_out_app (t u : list event) : handed_out (t ++ u) = handed_out t ++ handed_out u.
Proof. unfold handed_out. apply omap_app. Qed.

(** *** The trace of a call

    What each call appends: the call of the library it makes, if any, then
    the lines of its [log] calls. *)
Lemma after_trace (c : call) (w : World) :
  exists msgs,
    trace (after c w) = trace w ++ library_call c w ++ log_lines msgs (srv w) /\
    match c with
    | CallConfig _ => (length msgs <= 2)%nat /\ Forall (fun m => m.2 = 2) msgs
    | CallSetMessagesDst _ => msgs = []
    | CallAccept =>
        (length msgs <= 1)%nat /\
        Forall (fun m => m.2 = 2 \/
                         (m.2 = 3 /\ exists e, m.1 = "accept conn error: " +:+ e)) msgs
    | _ => (length msgs <= 1)%nat /\ Forall (fun m => m.2 = 2) msgs
    end.
Proof.
  destruct c as [o|dst|cert key|cert| |]; unfold after, library_call.
  - (* Config *)
    destruct o as [o|]; [|nothing_added].
    destruct (Z.eq_dec (Port o) 0) as [Hp|Hp].
    + rewrite (Config_zero_run _ _ Hp).
      pose proof (log_trace port_is_zero 2 w) as T1.
      pose proof (log_srv port_is_zero 2 w) as S1.
      destruct (log port_is_zero 2 w) as [[[]|] w1]; cbn [snd] in T1, S1.
      * pose proof (log_trace port_by_default 2 w1) as T2.
        destruct (log port_by_default 2 w1) as [[[]|] w2]; cbn [snd] in T2 |- *;
          exists [(port_is_zero, 2); (port_by_default, 2)];
          cbn [trace app log_lines fmap list_fmap concat fst snd];
          rewrite T2, T1, S1, app_nil_r, <- app_assoc; messages.
      * exists [(port_is_zero, 2)]. cbn [snd trace app log_lines fmap list_fmap concat fst].
        rewrite T1, app_nil_r. messages.
    + rewrite (Config_nonzero_run _ _ Hp). nothing_added.
  - (* SetMessagesDst *)
    nothing_added.
  - (* LoadKeyPair *)
    rewrite LoadKeyPair_run.
    destruct (X509KeyPair cert key) as [kp|err]; [|nothing_added].
    destruct (pem_Decode cert).1 as [blk|]; [|nothing_added].
    destruct (ParseCertificate (Bytes blk)) as [ca|err]; [|nothing_added].
    exists [("load key pair ok", 2)]. rewrite log_then_trace.
    cbn [app log_lines fmap list_fmap concat fst snd with_pair_and_pool trace srv].
    rewrite app_nil_r. messages.
  - (* AddClientCACert *)
    rewrite AddClientCACert_run.
    destruct (pem_Decode cert).1 as [blk|]; [|nothing_added].
    destruct (ParseCertificate (Bytes blk)) as [ca|err]; [|nothing_added].
    destruct (certs_pool_Pool (srv w)) as [pool|]; [|nothing_added].
    exists [("load client CA cert ok", 2)]. rewrite log_then_trace.
    cbn [app log_lines fmap list_fmap concat fst snd trace srv].
    rewrite app_nil_r. messages.
  - (* Start *)
    rewrite Start_run.
    destruct (Certificate (certs_Cert (srv w))) as [|leaf chain]; [nothing_added|].
    destruct (options (srv w)) as [o|] eqn:Ho; [|nothing_added].
    cbn zeta. destruct (tls_Listen _ _ _ _) as [l|err] eqn:Hl.
    + exists [("listening on " +:+ listen_address o, 2)].
      rewrite log_then_trace.
      cbn [app log_lines fmap list_fmap concat fst snd trace srv].
      rewrite app_nil_r, <- app_assoc.
      rewrite (log_line_frame _ _ (srv w)) by (cbn; congruence).
      messages.
    + exists []. cbn. messages.
  - (* Accept *)
    rewrite Accept_run.
    destruct (listener (srv w)) as [l|]; [|nothing_added].
    cbn zeta. destruct (Listener_Accept (trace w) l) as [conn [e|]]; cbn [fst snd].
    + exists [("accept conn error: " +:+ e, 3)].
      rewrite log_then_trace.
      cbn [app log_lines fmap list_fmap concat fst snd trace srv].
      rewrite app_nil_r, <- app_assoc. split; [reflexivity|].
      split; [constructor|]. constructor; [|constructor]. right. eauto.
    + destruct conn as [c|].
      * exists [("accepted conn from " +:+ RemoteAddr c, 2)].
        rewrite log_then_trace.
        cbn [app log_lines fmap list_fmap concat fst snd trace srv].
        rewrite app_nil_r, <- app_assoc. split; [reflexivity|].
        split; [constructor|]. constructor; [|constructor]. left. reflexivity.
      * exists []. cbn. messages.
Qed.

Lemma written_library_call (c : call) (w : World) : written (library_call c w) = [].
Proof.
  destruct c; try reflexivity; unfold library_call.
  - destruct (Certificate (certs_Cert (srv w))); [reflexivity|].
    destruct (options (srv w)); reflexivity.
  - destruct (listener (srv w)); reflexivity.
Qed.

(** The lines of [log] calls: at most one a call, each to the writer of the
    server and in the format of [log]. *)
Lemma written_log_lines (msgs : list (string * Z)) (h : Server) :
  (length (written (log_lines msgs h)) <= length msgs)%nat /\
  Forall (fun x => logDestination h = Some x.1 /\
                   exists m, x.2 = "herots srv: " +:+ m +:+ LF)
         (written (log_lines msgs h)).
Proof.
  induction msgs as [|[m lvl] msgs [IHl IHf]]; [split; [reflexivity|constructor]|].
  unfold log_lines. cbn [fmap list_fmap concat fst snd]. fold (log_lines msgs h).
  rewrite written_app.
  destruct (log_line_cases m lvl h) as [->|(o & d & _ & Hd & _ & _ & ->)].
  - cbn [written omap list_omap app length]. split; [lia|exact IHf].
  - cbn [written omap list_omap app length]. fold (written (log_lines msgs h)).
    split; [lia|]. constructor; [|exact IHf]. cbn [fst snd]. eauto.
Qed.

(** [Start] leaves options, key pair and pool alone. *)
Lemma Start_keeps_fields (w : World) :
  options (srv (Start w).2) = options (srv w) /\
  certs_Cert (srv (Start w).2) = certs_Cert (srv w) /\
  certs_pool_Pool (srv (Start w).2) = certs_pool_Pool (srv w).
Proof.
  rewrite Start_run.
  destruct (Certificate (certs_Cert (srv w))) as [|leaf chain] eqn:Hc; [repeat split|].
  destruct (options (srv w)) as [o|] eqn:Ho; [|repeat split; cbn; congruence].
  cbn zeta. destruct (tls_Listen _ _ _ _) as [l|err];
    [rewrite log_then_srv|]; repeat split; cbn; congruence.
Qed.

(** The listener is assigned by [Start] only; key pair and pool by
    [LoadKeyPair] and [AddClientCACert] only. *)
Lemma call_frame_fields (c : call) (w : World) :
  (operation_of c <> OpStart -> listener (srv (after c w)) = listener (srv w)) /\
  (operation_of c <> OpLoadKeyPair ->
     certs_Cert (srv (after c w)) = certs_Cert (srv w)) /\
  (operation_of c <> OpLoadKeyPair -> operation_of c <> OpAddClientCACert ->
     certs_pool_Pool (srv (after c w)) = certs_pool_Pool (srv w)) /\
  (operation_of c <> OpConfig -> options (srv (after c w)) = options (srv w)).
Proof.
  destruct c as [o|dst|cert key|cert| |]; unfold after; cbn [operation_of].
  - destruct o as [o|]; [|frame_done].
    destruct (Z.eq_dec (Port o) 0) as [Hp|Hp].
    + rewrite (Config_zero_run _ _ Hp).
      pose proof (log_srv port_is_zero 2 w) as S1.
      destruct (log port_is_zero 2 w) as [[[]|] w1]; cbn [snd] in S1 |- *.
      * pose proof (log_srv port_by_default 2 w1) as S2.
        destruct (log port_by_default 2 w1) as [[[]|] w2]; cbn [snd] in S2 |- *;
          cbn [srv set_options listener certs_Cert certs_pool_Pool];
          rewrite ?S2, ?S1; frame_done.
      * rewrite S1. frame_done.
    + rewrite (Config_nonzero_run _ _ Hp).
      frame_done.
  - frame_done.
  - rewrite LoadKeyPair_run.
    destruct (X509KeyPair cert key) as [kp|err];
      [|frame_done].
    destruct (pem_Decode cert).1 as [blk|];
      [|frame_done].
    destruct (ParseCertificate (Bytes blk)) as [ca|err];
      [rewrite log_then_srv|]; frame_done.
  - rewrite AddClientCACert_run.
    destruct (pem_Decode cert).1 as [blk|];
      [|frame_done].
    destruct (ParseCertificate (Bytes blk)) as [ca|err];
      [|frame_done].
    destruct (certs_pool_Pool (srv w)) as [pool|] eqn:Hp;
      [rewrite log_then_srv|]; frame_done.
  - destruct (Start_keeps_fields w) as (Ho & Hc & Hp).
    frame_done.
  - rewrite Accept_run.
    destruct (listener (srv w)) as [l|] eqn:Hl; [|frame_done].
    cbn zeta. destruct (Listener_Accept (trace w) l) as [conn [e|]]; cbn [fst snd].
    + rewrite log_then_srv. frame_done.
    + destruct conn as [c|]; [rewrite log_then_srv|]; frame_done.
Qed.

(** X1. What a call may change in the server: [Config] the options only,
    [SetMessagesDst] the writer only, [LoadKeyPair] the key pair, the pool
    and its flag only, [AddClientCACert] the pool only, [Start] the
    listener only, and [Accept] nothing, however the call ends. *)
Theorem call_frame (c : call) (w : World) :
  match c with
  | CallConfig _ => srv (after c w) = set_options (options (srv (after c w))) (srv w)
  | CallSetMessagesDst dst => srv (after c w) = set_logDestination dst (srv w)
  | CallLoadKeyPair _ _ =>
      options (srv (after c w)) = options (srv w) /\
      listener (srv (after c w)) = listener (srv w) /\
      logDestination (srv (after c w)) = logDestination (srv w)
  | CallAddClientCACert _ =>
      srv (after c w) = set_Pool (certs_pool_Pool (srv (after c w))) (srv w)
  | CallStart => srv (after c w) = set_listener (listener (srv (after c w))) (srv w)
  | CallAccept => srv (after c w) = srv w
  end.
Proof.
  assert (Hid : forall h, h = set_options (options h) h /\
                          h = set_Pool (certs_pool_Pool h) h /\
                          h = set_listener (listener h) h)
    by (intros []; repeat split).
  destruct c as [o|dst|cert key|cert| |]; unfold after.
  - destruct o as [o|]; [|apply Hid].
    destruct (Z.eq_dec (Port o) 0) as [Hp|Hp].
    + rewrite (Config_zero_run _ _ Hp).
      pose proof (log_srv port_is_zero 2 w) as S1.
      destruct (log port_is_zero 2 w) as [[[]|] w1]; cbn [snd] in S1 |- *.
      * pose proof (log_srv port_by_default 2 w1) as S2.
        destruct (log port_by_default 2 w1) as [[[]|] w2]; cbn [snd] in S2 |- *.
        -- cbn [srv]. rewrite S2, S1. reflexivity.
        -- rewrite S2, S1. apply Hid.
      * rewrite S1. apply Hid.
    + rewrite (Config_nonzero_run _ _ Hp). reflexivity.
  - reflexivity.
  - rewrite LoadKeyPair_run.
    destruct (X509KeyPair cert key) as [kp|err]; [|repeat split].
    destruct (pem_Decode cert).1 as [blk|]; [|repeat split].
    destruct (ParseCertificate (Bytes blk)) as [ca|err]; [|repeat split].
    rewrite log_then_srv. repeat split.
  - rewrite AddClientCACert_run.
    destruct (pem_Decode cert).1 as [blk|]; [|apply Hid].
    destruct (ParseCertificate (Bytes blk)) as [ca|err]; [|apply Hid].
    destruct (certs_pool_Pool (srv w)) as [pool|] eqn:Hp; [|apply Hid].
    rewrite log_then_srv. reflexivity.
  - rewrite Start_run.
    destruct (Certificate (certs_Cert (srv w))) as [|leaf chain]; [apply Hid|].
    destruct (options (srv w)) as [o|]; [|apply Hid].
    cbn zeta. destruct (tls_Listen _ _ _ _) as [l|err]; [|apply Hid].
    rewrite log_then_srv. reflexivity.
  - rewrite Accept_run.
    destruct (listener (srv w)) as [l|]; [|reflexivity].
    cbn zeta. destruct (Listener_Accept (trace w) l) as [conn [e|]]; cbn [fst snd].
    + rewrite log_then_srv. reflexivity.
    + destruct conn as [c|]; [rewrite log_then_srv|]; reflexivity.
Qed.

(** X2. A call only appends to what was written: at most two lines for
    [Config], none for [SetMessagesDst], at most one for the others. Each
    line goes to the writer the server had when the call started and is
    the message between the tag [herots srv: ] and a line feed. *)
Theorem call_appends_tagged_lines (c : call) (w : World) :
  exists lines,
    written (trace (after c w)) = written (trace w) ++ lines /\
    (length lines <= match c with
                     | CallConfig _ => 2
                     | CallSetMessagesDst _ => 0
                     | _ => 1
                     end)%nat /\
    Forall (fun x => logDestination (srv w) = Some x.1 /\
                     exists m, x.2 = "herots srv: " +:+ m +:+ LF) lines.
Proof.
  destruct (after_trace c w) as (msgs & Ht & Hmsgs).
  pose proof (written_library_call c w) as Hext.
  destruct (written_log_lines msgs (srv w)) as [Hlen Hall].
  exists (written (log_lines msgs (srv w))).
  split; [rewrite Ht, !written_app, Hext; reflexivity|]. split; [|exact Hall].
  destruct c; [apply proj1 in Hmsgs; lia|subst msgs; reflexivity
                |apply proj1 in Hmsgs; lia..].
Qed.

(** X3. Under a level above 2 the calls with severity 2 write nothing: the
    only line a call can write is the error line of [Accept], and that one
    under level 3 only. *)
Theorem above_level_2_only_accept_errors (c : call) (w : World) (o : Options) :
  options (srv w) = Some o ->
  2 < LogLevel o ->
  written (trace (after c w)) = written (trace w) \/
  (c = CallAccept /\ LogLevel o = 3 /\
   exists d e, logDestination (srv w) = Some d /\
     written (trace (after c w)) =
       written (trace w) ++
       [(d, "herots srv: " +:+ ("accept conn error: " +:+ e) +:+ LF)]).
Proof.
  intros Ho HL.
  assert (Hquiet : forall m, log_line m 2 (srv w) = []).
  { intros m. unfold log_line. rewrite Ho.
    destruct (logDestination (srv w)); [|reflexivity].
    destruct (Z.eqb_spec (LogLevel o) 0); [reflexivity|].
    destruct (Z.leb_spec (LogLevel o) 2); [lia|reflexivity]. }
  assert (Hall : forall msgs, Forall (fun m : string * Z => m.2 = 2) msgs ->
                              log_lines msgs (srv w) = []).
  { induction 1 as [|[m lvl] msgs Hm _ IH]; [reflexivity|].
    cbn [snd] in Hm. subst lvl. unfold log_lines. cbn [fmap list_fmap concat fst snd].
    rewrite Hquiet. exact IH. }
  destruct (after_trace c w) as (msgs & Ht & Hmsgs).
  pose proof (written_library_call c w) as Hext.
  rewrite Ht, !written_app, Hext. cbn [app].
  destruct c as [r|dst|cert key|cert| |];
    [left; apply proj2 in Hmsgs; rewrite (Hall _ Hmsgs); cbn; apply app_nil_r
    |left; subst msgs; cbn; apply app_nil_r
    |left; apply proj2 in Hmsgs; rewrite (Hall _ Hmsgs); cbn; apply app_nil_r..
    |].
  - destruct Hmsgs as [Hn Hm]. destruct msgs as [|[m lvl] [|m' msgs]]; cbn in Hn; [..|lia].
    + left. cbn. apply app_nil_r.
    + apply Forall_cons in Hm as [[Hm|[Hm [e He]]] _]; cbn [fst snd] in *; subst.
      * left. unfold log_lines. cbn [fmap list_fmap concat fst snd].
        rewrite Hquiet. cbn. apply app_nil_r.
      * unfold log_lines. cbn [fmap list_fmap concat fst snd]. rewrite app_nil_r.
        destruct (log_line_cases ("accept conn error: " +:+ e) 3 (srv w))
          as [->|(o' & d & Ho' & Hd & _ & Hle & ->)].
        -- left. cbn. apply app_nil_r.
        -- right. rewrite Ho in Ho'. injection Ho' as <-.
           split; [reflexivity|]. split; [lia|]. exists d, e. split; [exact Hd|reflexivity].
Qed.

(** X4. After [SetMessagesDst] with a writer, every line the next call
    writes goes to that writer, and what was written before stays as it
    was. *)
Theorem SetMessagesDst_redirects (d : Writer) (c : call) (w : World) :
  exists lines,
    written (trace (after c (after (CallSetMessagesDst (Some d)) w))) =
      written (trace w) ++ lines /\
    Forall (fun x => x.1 = d) lines.
Proof.
  set (w1 := after (CallSetMessagesDst (Some d)) w).
  destruct (after_trace c w1) as (msgs & Ht & _).
  pose proof (written_library_call c w1) as Hext.
  destruct (written_log_lines msgs (srv w1)) as [_ Hall].
  exists (written (log_lines msgs (srv w1))).
  split; [rewrite Ht, !written_app, Hext; reflexivity|].
  assert (Hd : logDestination (srv w1) = Some d) by reflexivity.
  apply (Forall_impl _ _ _ Hall). intros x [Hx _]. congruence.
Qed.

(** *** Start and the listener *)

Lemma binds_log_lines (msgs : list (string * Z)) (h : Server) : binds (log_lines msgs h) = [].
Proof.
  induction msgs as [|m msgs IH]; [reflexivity|].
  unfold log_lines. cbn [fmap list_fmap concat]. fold (log_lines msgs h).
  rewrite binds_app, binds_log_line, IH. reflexivity.
Qed.

Lemma handed_out_log_lines (msgs : list (string * Z)) (h : Server) :
  handed_out (log_lines msgs h) = [].
Proof.
  induction msgs as [|m msgs IH]; [reflexivity|].
  unfold log_lines. cbn [fmap list_fmap concat]. fold (log_lines msgs h).
  rewrite handed_out_app, handed_out_log_line, IH. reflexivity.
Qed.

(** Only [Start] calls [tls.Listen], and at most once. *)
Lemma after_binds (c : call) (w : World) :
  binds (trace (after c w)) =
    binds (trace w) ++ match c with
                       | CallStart => listen_call (srv w)
                       | _ => []
                       end.
Proof.
  destruct (after_trace c w) as (msgs & -> & _).
  rewrite !binds_app, binds_log_lines, app_nil_r. f_equal.
  destruct c; try reflexivity; unfold library_call, listen_call.
  - destruct (Certificate (certs_Cert (srv w))); [reflexivity|].
    destruct (options (srv w)); reflexivity.
  - destruct (listener (srv w)); reflexivity.
Qed.

(** The server after [Start]: the listener is assigned when [tls.Listen]
    answered with one, and nothing else is. *)
Lemma Start_srv (w : World) :
  srv (Start w).2 =
    match Certificate (certs_Cert (srv w)), options (srv w) with
    | _ :: _, Some o =>
        match tls_Listen (trace w) "tcp" (listen_address o) (listen_config (srv w) o) with
        | inl l => set_listener (Some l) (srv w)
        | inr _ => srv w
        end
    | _, _ => srv w
    end.
Proof.
  rewrite Start_run.
  destruct (Certificate (certs_Cert (srv w))) as [|leaf chain]; [reflexivity|].
  destruct (options (srv w)) as [o|]; [|reflexivity].
  cbn zeta. destruct (tls_Listen _ _ _ _) as [l|err]; [|reflexivity].
  rewrite log_then_srv. reflexivity.
Qed.

(** X5. [Start] has no guard against a second call. On a server that holds
    a key pair and options, two calls of [Start] call [tls.Listen] twice,
    with the same address and the same configuration; when the second call
    gets a listener, that one replaces the listener the server held. *)
Theorem Start_twice_listens_twice (w : World) (o : Options) :
  Certificate (certs_Cert (srv w)) <> [] ->
  options (srv w) = Some o ->
  binds (trace (after CallStart (after CallStart w))) =
    binds (trace w) ++ [("tcp", listen_address o, listen_config (srv w) o);
                        ("tcp", listen_address o, listen_config (srv w) o)] /\
  (forall l2,
     tls_Listen (trace (after CallStart w)) "tcp" (listen_address o)
       (listen_config (srv w) o) = inl l2 ->
     listener (srv (after CallStart (after CallStart w))) = Some l2).
Proof.
  intros Hc Ho.
  change (after CallStart (after CallStart w)) with (Start (Start w).2).2.
  change (after CallStart w) with (Start w).2.
  destruct (Start_keeps_fields w) as (Ho1 & Hc1 & Hp1).
  assert (Hcfg : listen_config (srv (Start w).2) o = listen_config (srv w) o)
    by (unfold listen_config; rewrite Hc1, Hp1; reflexivity).
  assert (Hcall : forall w', Certificate (certs_Cert (srv w')) <> [] ->
                    options (srv w') = Some o ->
                    listen_call (srv w') = [("tcp", listen_address o, listen_config (srv w') o)]).
  { intros w' Hc' Ho'. unfold listen_call. rewrite Ho'.
    destruct (Certificate (certs_Cert (srv w'))); [contradiction|reflexivity]. }
  split.
  - change (Start (Start w).2).2 with (after CallStart (Start w).2).
    rewrite (after_binds CallStart (Start w).2).
    change (Start w).2 with (after CallStart w) at 1.
    rewrite (after_binds CallStart w).
    rewrite (Hcall w Hc Ho), (Hcall (Start w).2) by congruence.
    rewrite Hcfg, <- app_assoc. reflexivity.
  - intros l2 Hl2. rewrite Start_srv, Ho1, Ho, Hc1, Hcfg, Hl2.
    destruct (Certificate (certs_Cert (srv w))); [contradiction|reflexivity].
Qed.

Lemma after_handed_out (c : call) (w : World) :
  handed_out (trace (after c w)) = handed_out (trace w) ++ handed_out (library_call c w).
Proof.
  destruct (after_trace c w) as (msgs & -> & _).
  rewrite !handed_out_app, handed_out_log_lines, app_nil_r. reflexivity.
Qed.

Lemma reachable_listener (w : World) :
  reachable w -> listener (srv w) = last (handed_out (trace w)).
Proof.
  induction 1 as [|c w Hr IH]; [reflexivity|].
  rewrite after_handed_out.
  destruct c as [o|dst|cert key|cert| |];
    [rewrite (proj1 (call_frame_fields _ w)) by discriminate;
     cbn [library_call handed_out omap list_omap]; rewrite app_nil_r; exact IH..
    | |].
  - change (after CallStart w) with (Start w).2. rewrite Start_srv. unfold library_call.
    destruct (Certificate (certs_Cert (srv w))) as [|leaf chain];
      [cbn; rewrite app_nil_r; exact IH|].
    destruct (options (srv w)) as [o|]; [|cbn; rewrite app_nil_r; exact IH].
    destruct (tls_Listen _ _ _ _) as [l|err]; cbn [handed_out omap list_omap].
    + rewrite last_snoc. reflexivity.
    + rewrite app_nil_r. exact IH.
  - rewrite (proj1 (call_frame_fields _ w)) by discriminate.
    unfold library_call. destruct (listener (srv w)) as [l|];
      cbn [handed_out omap list_omap]; rewrite app_nil_r; exact IH.
Qed.

(** X6. On a server built with [NewServer], the listener the server holds
    is always the one the last successful [tls.Listen] returned, and nil
    when there was none: as long as no [Start] has got a listener,
    [Accept] panics on the nil listener, and calls nothing. *)
Theorem listener_is_last_handed_out (w : World) :
  reachable w ->
  listener (srv w) = last (handed_out (trace w)) /\
  (handed_out (trace w) = [] -> Accept w = (Panic, w)).
Proof.
  intros Hr. pose proof (reachable_listener w Hr) as Hl. split; [exact Hl|].
  intros Hnone. rewrite Hnone in Hl. rewrite Accept_run, Hl. reflexivity.
Qed.

(** A call keeps the options a pointer to a record, and the pool in place
    once a key pair is stored. *)
Lemma after_options (c : call) (w : World) :
  is_Some (options (srv w)) -> is_Some (options (srv (after c w))).
Proof.
  intros Ho. destruct c as [o|dst|cert key|cert| |];
    [|rewrite (proj2 (proj2 (proj2 (call_frame_fields _ w)))) by discriminate; exact Ho..].
  unfold after. destruct o as [o|]; [|exact Ho].
  destruct (Z.eq_dec (Port o) 0) as [Hp|Hp].
  - rewrite (Config_zero_run _ _ Hp).
    pose proof (log_srv port_is_zero 2 w) as S1.
    destruct (log port_is_zero 2 w) as [[[]|] w1]; cbn [snd] in S1 |- *.
    + pose proof (log_srv port_by_default 2 w1) as S2.
      destruct (log port_by_default 2 w1) as [[[]|] w2]; cbn [snd] in S2 |- *.
      * cbn. eauto.
      * rewrite S2, S1. exact Ho.
    + rewrite S1. exact Ho.
  - rewrite (Config_nonzero_run _ _ Hp). cbn. eauto.
Qed.

Lemma after_pool (c : call) (w : World) :
  (Certificate (certs_Cert (srv w)) <> [] -> is_Some (certs_pool_Pool (srv w))) ->
  Certificate (certs_Cert (srv (after c w))) <> [] ->
  is_Some (certs_pool_Pool (srv (after c w))).
Proof.
  intros Hinv. destruct c as [o|dst|cert key|cert| |].
  - rewrite (proj1 (proj2 (call_frame_fields _ w))) by discriminate.
    rewrite (proj1 (proj2 (proj2 (call_frame_fields _ w)))) by discriminate. exact Hinv.
  - rewrite (proj1 (proj2 (call_frame_fields _ w))) by discriminate.
    rewrite (proj1 (proj2 (proj2 (call_frame_fields _ w)))) by discriminate. exact Hinv.
  - intros _. unfold after. rewrite LoadKeyPair_run.
    destruct (X509KeyPair cert key) as [kp|err]; [|cbn; eauto].
    destruct (pem_Decode cert).1 as [blk|]; [|cbn; eauto].
    destruct (ParseCertificate (Bytes blk)) as [ca|err]; [rewrite log_then_srv|]; cbn; eauto.
  - rewrite (proj1 (proj2 (call_frame_fields _ w))) by discriminate.
    intros Hc. destruct (Hinv Hc) as [pool Hp].
    destruct (AddClientCACert_pool_grows cert w pool Hp) as (pool' & Hp' & _).
    unfold after. rewrite Hp'. eauto.
  - rewrite (proj1 (proj2 (call_frame_fields _ w))) by discriminate.
    rewrite (proj1 (proj2 (proj2 (call_frame_fields _ w)))) by discriminate. exact Hinv.
  - rewrite (proj1 (proj2 (call_frame_fields _ w))) by discriminate.
    rewrite (proj1 (proj2 (proj2 (call_frame_fields _ w)))) by discriminate. exact Hinv.
Qed.

(** X7. On a server built with [NewServer] the options are never nil, and
    every call of [tls.Listen] was for network tcp, with a pool as
    [ClientCAs] (never nil) and with one certificate, whose chain is not
    empty. *)
Theorem reachable_listen_calls (w : World) :
  reachable w ->
  is_Some (options (srv w)) /\
  Forall (fun b => b.1.1 = "tcp" /\ is_Some (ClientCAs b.2) /\
                   exists kp, Certificates b.2 = [kp] /\ Certificate kp <> [])
         (binds (trace w)).
Proof.
  intros Hr.
  assert (Hinv : is_Some (options (srv w)) /\
                 (Certificate (certs_Cert (srv w)) <> [] ->
                  is_Some (certs_pool_Pool (srv w))) /\
                 Forall (fun b => b.1.1 = "tcp" /\ is_Some (ClientCAs b.2) /\
                                  exists kp, Certificates b.2 = [kp] /\ Certificate kp <> [])
                        (binds (trace w))).
  { induction Hr as [|c w Hr (Ho & Hp & Hb)].
    - split; [cbn; eauto|]. split; [intros Hc; contradiction|constructor].
    - split; [exact (after_options c w Ho)|]. split; [exact (after_pool c w Hp)|].
      rewrite after_binds. apply Forall_app. split; [exact Hb|].
      destruct c; try constructor. unfold listen_call.
      destruct (Certificate (certs_Cert (srv w))) as [|leaf chain] eqn:Hc; [constructor|].
      destruct (options (srv w)) as [o|]; [|constructor].
      constructor; [|constructor]. cbn [fst snd listen_config ClientCAs Certificates].
      split; [reflexivity|]. split; [apply Hp; rewrite ?Hc; discriminate|].
      exists (certs_Cert (srv w)). split; [reflexivity|]. rewrite ?Hc. discriminate. }
  destruct Hinv as (Ho & _ & Hb). split; assumption.
Qed.

(** [Start] with a key pair never returns the [NoKeyPairLoad] error. *)
Lemma Start_with_key_pair (w : World) :
  Certificate (certs_Cert (srv w)) <> [] ->
  (Start w).1 <> Ret (Some (Errorf1 NoKeyPairLoad)).
Proof.
  intros Hc. rewrite Start_run.
  destruct (Certificate (certs_Cert (srv w))) as [|leaf chain]; [contradiction|].
  destruct (options (srv w)) as [o|]; [|discriminate].
  cbn zeta. destruct (tls_Listen _ _ _ _) as [l|e]; cbn [fst].
  - unfold log_then. destruct (log _ _ _) as [[[]|] w'']; discriminate.
  - intros E. apply (StartServerError_is_not_NoKeyPairLoad e). congruence.
Qed.

(** X8. A stored key pair is never taken away: once the chain is not
    empty it stays so through any calls, also through a [LoadKeyPair]
    that fails, and [Start] never again returns the [NoKeyPairLoad]
    error. *)
Theorem key_pair_is_never_removed (cs : list call) (w : World) :
  X509KeyPair_has_leaf ->
  Certificate (certs_Cert (srv w)) <> [] ->
  Certificate (certs_Cert (srv (after_all cs w))) <> [] /\
  (Start (after_all cs w)).1 <> Ret (Some (Errorf1 NoKeyPairLoad)).
Proof.
  intros Hleaf Hc.
  assert (Hkept : Certificate (certs_Cert (srv (after_all cs w))) <> []).
  { revert w Hc. induction cs as [|c cs IH]; intros w Hc; [exact Hc|].
    cbn [after_all foldl]. apply IH. intros E.
    exact (Hc (proj1 (after_without_key_pair c w Hleaf E))). }
  split; [exact Hkept|]. apply Start_with_key_pair, Hkept.
Qed.

(** *** Inputs the operations accept and refuse *)

(** X9. On a server without a pool (no [LoadKeyPair] was called yet)
    [AddClientCACert] cannot succeed: it changes nothing, it never returns
    nil, and for an input that holds a certificate it panics on the nil
    pool. *)
Theorem AddClientCACert_without_pool (cert : bytes) (w : World) :
  certs_pool_Pool (srv w) = None ->
  (AddClientCACert cert w).2 = w /\
  (AddClientCACert cert w).1 <> Ret None /\
  (is_Some (first_certificate cert) -> (AddClientCACert cert w).1 = Panic).
Proof.
  intros Hp. rewrite AddClientCACert_run, Hp. unfold first_certificate.
  destruct (pem_Decode cert) as [[blk|] rest]; cbn [fst snd].
  - destruct (ParseCertificate (Bytes blk)) as [ca|err]; cbn [fst snd].
    + split; [reflexivity|]. split; [discriminate|]. intros _. reflexivity.
    + split; [reflexivity|]. split; [discriminate|]. intros [ca Hca]. discriminate.
  - split; [reflexivity|]. split; [discriminate|]. intros [ca Hca]. discriminate.
Qed.

(** X10. A [Config] that returns has stored the caller's record with every
    field as given, but for a port 0, which became 9000: the stored port is
    never 0. No other check is made on the record, and its
    [LogDestination] is not looked at: the writer of the server is as
    before. With a port other than 0 [Config] always returns, and writes
    nothing. *)
Theorem Config_stores (o : Options) (w w' : World) :
  Config (Some o) w = (Ret (), w') ->
  options (srv w') = Some (if Port o =? 0 then set_Port 9000 o else o) /\
  (forall o', options (srv w') = Some o' ->
     Port o' <> 0 /\ Host o' = Host o /\ LogLevel o' = LogLevel o /\
     LogDestination o' = LogDestination o /\ TLSAuthType o' = TLSAuthType o) /\
  logDestination (srv w') = logDestination (srv w) /\
  (Port o <> 0 -> trace w' = trace w).
Proof.
  intros Hrun.
  assert (Hsrv : srv w' = set_options (Some (if Port o =? 0 then set_Port 9000 o else o))
                            (srv w) /\ (Port o <> 0 -> trace w' = trace w)).
  { destruct (Z.eqb_spec (Port o) 0) as [Hp|Hp].
    - rewrite (Config_zero_run _ _ Hp) in Hrun.
      pose proof (log_srv port_is_zero 2 w) as S1.
      destruct (log port_is_zero 2 w) as [[[]|] w1]; [|discriminate].
      pose proof (log_srv port_by_default 2 w1) as S2.
      destruct (log port_by_default 2 w1) as [[[]|] w2]; [|discriminate].
      cbn [snd] in S1, S2. injection Hrun as <-. cbn [srv]. rewrite S2, S1.
      split; [reflexivity|contradiction].
    - rewrite (Config_nonzero_run _ _ Hp) in Hrun. injection Hrun as <-.
      split; [reflexivity|]. reflexivity. }
  destruct Hsrv as [Hs Ht]. rewrite Hs. cbn [set_options options logDestination].
  split; [reflexivity|]. split; [|split; [reflexivity|exact Ht]].
  intros o' [= <-]. destruct (Z.eqb_spec (Port o) 0) as [Hp|Hp]; cbn; repeat split.
  - lia.
  - exact Hp.
Qed.

(** X11. When the listener hands over a connection, [Accept] returns it
    with a nil error and leaves the server as it was (on a server with
    options and a writer). The line it logs, with severity 2, names the
    remote address of that connection. *)
Theorem Accept_returns_connection (w : World) (l : Listener) (c : Conn)
    (o : Options) (d : Writer) :
  listener (srv w) = Some l ->
  Listener_Accept (trace w) l = (Some c, None) ->
  options (srv w) = Some o ->
  logDestination (srv w) = Some d ->
  exists w', Accept w = (Ret (Some c, None), w') /\
    srv w' = srv w /\
    written (trace w') =
      written (trace w) ++
      (if (LogLevel o =? 0) then []
       else if (LogLevel o <=? 2)
            then [(d, "herots srv: " +:+ ("accepted conn from " +:+ RemoteAddr c) +:+ LF)]
            else []).
Proof.
  intros Hl Ha Ho Hd. rewrite Accept_run, Hl. cbn zeta. rewrite Ha. cbn [fst snd].
  set (w1 := {| srv := srv w; trace := trace w ++ [EvAccept l (Some c, None)] |}).
  destruct (log_then_returns ("accepted conn from " +:+ RemoteAddr c) 2 (Some c, None : option error) w1)
    as (w' & Hrun & Hs); [cbn; eauto..|].
  exists w'. split; [exact Hrun|]. split; [exact Hs|].
  apply (f_equal (fun r => written (trace r.2))) in Hrun. cbn [snd] in Hrun.
  rewrite <- Hrun, log_then_trace. cbn [w1 srv trace]. rewrite !written_app.
  cbn [written omap list_omap app]. rewrite app_nil_r. f_equal.
  unfold log_line. rewrite Ho, Hd.
  destruct (LogLevel o =? 0); [reflexivity|]. destruct (LogLevel o <=? 2); reflexivity.
Qed.

(** *** The errors *)

Lemma append_assoc (a b c : string) : (a +:+ b) +:+ c = a +:+ (b +:+ c).
Proof.
  induction a as [|x a IH]; [reflexivity|].
  change (String x ((a +:+ b) +:+ c) = String x (a +:+ (b +:+ c))).
  rewrite IH. reflexivity.
Qed.

(** The error of a call is built from the message of its operation. *)
Lemma error_of_form (c : call) (w : World) (e : error) :
  error_of c w = Some e ->
  match operation_of c with
  | OpLoadKeyPair => exists err, e = Errorf2 LoadKeyPairError err
  | OpAddClientCACert => exists err, e = Errorf2 LoadClientCaCertError err
  | OpStart => e = Errorf1 NoKeyPairLoad \/ exists err, e = Errorf2 StartServerError err
  | OpAccept => exists err, e = Errorf2 AcceptConnError err
  | _ => False
  end.
Proof.
  destruct c as [o|dst|cert key|cert| |]; cbn [error_of operation_of]; try discriminate.
  - rewrite LoadKeyPair_run.
    destruct (X509KeyPair cert key) as [kp|err]; [|intros [= <-]; eauto].
    destruct (pem_Decode cert).1 as [blk|]; [|discriminate].
    destruct (ParseCertificate (Bytes blk)) as [ca|err]; [|intros [= <-]; eauto].
    unfold log_then. destruct (log _ _ _) as [[[]|] w']; discriminate.
  - rewrite AddClientCACert_run.
    destruct (pem_Decode cert).1 as [blk|]; [|discriminate].
    destruct (ParseCertificate (Bytes blk)) as [ca|err]; [|intros [= <-]; eauto].
    destruct (certs_pool_Pool (srv w)) as [pool|]; [|discriminate].
    unfold log_then. destruct (log _ _ _) as [[[]|] w']; discriminate.
  - rewrite Start_run.
    destruct (Certificate (certs_Cert (srv w))) as [|leaf chain]; [intros [= <-]; auto|].
    destruct (options (srv w)) as [o|]; [|discriminate].
    cbn zeta. destruct (tls_Listen _ _ _ _) as [l|err]; [|intros [= <-]; eauto].
    unfold log_then. destruct (log _ _ _) as [[[]|] w']; discriminate.
  - rewrite Accept_run.
    destruct (listener (srv w)) as [l|]; [|discriminate].
    cbn zeta. destruct (Listener_Accept (trace w) l) as [conn [err|]]; cbn [fst snd].
    + unfold log_then. destruct (log _ _ _) as [[[]|] w']; [|discriminate].
      intros [= <-]. eauto.
    + destruct conn as [c|]; [|discriminate].
      unfold log_then. destruct (log _ _ _) as [[[]|] w']; discriminate.
Qed.

(** X12. Every error an operation returns is the predefined message of
    that operation, then (but for [NoKeyPairLoad]) a colon and the text of
    the library's error, and always ends with a line feed. [Config] and
    [SetMessagesDst] return no error. *)
Theorem errors_by_operation (c : call) (w : World) (e : error) :
  error_of c w = Some e ->
  (exists text, e = text +:+ LF) /\
  match operation_of c with
  | OpLoadKeyPair => exists err, e = LoadKeyPairError +:+ ": " +:+ err +:+ LF
  | OpAddClientCACert => exists err, e = LoadClientCaCertError +:+ ": " +:+ err +:+ LF
  | OpStart =>
      e = NoKeyPairLoad +:+ LF \/ exists err, e = StartServerError +:+ ": " +:+ err +:+ LF
  | OpAccept => exists err, e = AcceptConnError +:+ ": " +:+ err +:+ LF
  | _ => False
  end.
Proof.
  intros He. apply error_of_form in He.
  assert (H2 : forall a err, exists text, Errorf2 a err = text +:+ LF).
  { intros a err. exists (a +:+ ": " +:+ err). unfold Errorf2.
    rewrite !append_assoc. reflexivity. }
  destruct (operation_of c); try contradiction.
  - destruct He as [err ->]. split; [apply H2|]. exists err. reflexivity.
  - destruct He as [err ->]. split; [apply H2|]. exists err. reflexivity.
  - destruct He as [->|[err ->]].
    + split; [exists NoKeyPairLoad; reflexivity|]. left. reflexivity.
    + split; [apply H2|]. right. exists err. reflexivity.
  - destruct He as [err ->]. split; [apply H2|]. exists err. reflexivity.
Qed.

(** X13. The text of an error tells which operation returned it: the
    predefined messages are such that reading the opening of the text
    gives back the operation, whatever the library's error inside. *)
Theorem error_names_operation (c : call) (w : World) (e : error) :
  error_of c w = Some e -> operation_named e = Some (operation_of c).
Proof.
  intros He. apply error_of_form in He.
  destruct (operation_of c); try contradiction.
  - destruct He as [err ->]. reflexivity.
  - destruct He as [err ->]. reflexivity.
  - destruct He as [->|[err ->]]; reflexivity.
  - destruct He as [err ->]. reflexivity.
Qed.

(** *** Successful calls *)

(** [log] returns on a server as it does on one with the same options and
    writer. *)
Lemma log_returns_frame (lvl : Z) (h h' : Server) :
  options h' = options h -> logDestination h' = logDestination h ->
  log_returns lvl h' <-> log_returns lvl h.
Proof. unfold log_returns. intros -> ->. reflexivity. Qed.

(** X14. When the operations return nil. [LoadKeyPair]: exactly when
    [tls.X509KeyPair] accepts the input, the first PEM block of the
    certificate input parses as a certificate, and the final [log] call
    returns. [AddClientCACert]: exactly when the first PEM block of the
    input parses as a certificate, the server has a pool, and [log]
    returns. [Start]: exactly when the server holds a key pair and
    options, [tls.Listen] answers with a listener, and [log] returns. *)
Theorem returns_nil_iff (w : World) :
  (forall cert key,
     (LoadKeyPair cert key w).1 = Ret None <->
     (exists kp, X509KeyPair cert key = inl kp) /\
     is_Some (first_certificate cert) /\ log_returns 2 (srv w)) /\
  (forall cert,
     (AddClientCACert cert w).1 = Ret None <->
     is_Some (first_certificate cert) /\ is_Some (certs_pool_Pool (srv w)) /\
     log_returns 2 (srv w)) /\
  ((Start w).1 = Ret None <->
   Certificate (certs_Cert (srv w)) <> [] /\
   (exists o l, options (srv w) = Some o /\
      tls_Listen (trace w) "tcp" (listen_address o) (listen_config (srv w) o) = inl l) /\
   log_returns 2 (srv w)).
Proof.
  split; [|split].
  - intros cert key. rewrite LoadKeyPair_run. unfold first_certificate.
    destruct (X509KeyPair cert key) as [kp|err].
    2:{ split; [discriminate|]. intros [[kp Hkp] _]. discriminate. }
    destruct (pem_Decode cert) as [[blk|] rest]; cbn [fst].
    2:{ split; [discriminate|]. intros (_ & [ca Hca] & _). discriminate. }
    destruct (ParseCertificate (Bytes blk)) as [ca|err].
    2:{ split; [discriminate|]. intros (_ & [ca Hca] & _). discriminate. }
    rewrite log_then_returns_iff.
    rewrite (log_returns_frame 2 (srv w)) by reflexivity.
    split; [intros Hlog; eauto|]. intros (_ & _ & Hlog). exact Hlog.
  - intros cert. rewrite AddClientCACert_run. unfold first_certificate.
    destruct (pem_Decode cert) as [[blk|] rest]; cbn [fst].
    2:{ split; [discriminate|]. intros ([ca Hca] & _). discriminate. }
    destruct (ParseCertificate (Bytes blk)) as [ca|err].
    2:{ split; [discriminate|]. intros ([ca Hca] & _). discriminate. }
    destruct (certs_pool_Pool (srv w)) as [pool|] eqn:Hp.
    2:{ split; [discriminate|]. intros (_ & [pool Hpool] & _). discriminate. }
    rewrite log_then_returns_iff.
    rewrite (log_returns_frame 2 (srv w)) by reflexivity.
    split; [intros Hlog; eauto|]. intros (_ & _ & Hlog). exact Hlog.
  - rewrite Start_run.
    destruct (Certificate (certs_Cert (srv w))) as [|leaf chain].
    { split; [discriminate|]. intros [Hc _]. contradiction. }
    destruct (options (srv w)) as [o|] eqn:Ho.
    2:{ split; [discriminate|]. intros (_ & (o & l & Ho' & _) & _). discriminate. }
    cbn zeta. destruct (tls_Listen _ _ _ _) as [l|err] eqn:Hl.
    2:{ split; [discriminate|]. intros (_ & (o' & l & [= <-] & Hl') & _).
        rewrite Hl in Hl'. discriminate. }
    rewrite log_then_returns_iff.
    rewrite (log_returns_frame 2 (srv w)) by (cbn; congruence).
    split.
    + intros Hlog. split; [discriminate|]. split; [|exact Hlog]. exists o, l. auto.
    + intros (_ & _ & Hlog). exact Hlog.
Qed.

Lemma AddCert_again (pool : CertPool) (ca : x509_Certificate) :
  AddCert (AddCert pool ca) ca = AddCert pool ca.
Proof.
  unfold AddCert. rewrite <- (assoc_L (∪)). f_equal. apply (idemp_L (∪)).
Qed.

(** X15. Adding a certificate that is already in the pool changes nothing
    in the server: after an [AddClientCACert] that returned nil, the same
    call again returns nil and leaves the server as it is. *)
Theorem AddClientCACert_again (cert : bytes) (w w1 : World) :
  AddClientCACert cert w = (Ret None, w1) ->
  exists w2, AddClientCACert cert w1 = (Ret None, w2) /\ srv w2 = srv w1.
Proof.
  rewrite !AddClientCACert_run.
  destruct (pem_Decode cert).1 as [blk|]; [|discriminate].
  destruct (ParseCertificate (Bytes blk)) as [ca|err]; [|discriminate].
  destruct (certs_pool_Pool (srv w)) as [pool|] eqn:Hp; [|discriminate].
  intros Hrun.
  assert (Hlog : log_returns 2 (srv w)).
  { apply (f_equal fst) in Hrun. cbn [fst] in Hrun.
    apply log_then_returns_iff in Hrun. exact Hrun. }
  apply log_then_inv in Hrun as (_ & Hs & _). cbn [srv] in Hs.
  assert (Hp1 : certs_pool_Pool (srv w1) = Some (AddCert pool ca)) by (rewrite Hs; reflexivity).
  rewrite Hp1.
  set (w1' := {| srv := set_Pool (Some (AddCert (AddCert pool ca) ca)) (srv w1);
                 trace := trace w1 |}).
  assert (Hlog1 : (log_then "load client CA cert ok" 2 (None : option error) w1').1 = Ret None).
  { apply log_then_returns_iff. unfold w1'. cbn [srv]. rewrite Hs.
    apply (log_returns_frame 2 (srv w)); [reflexivity..|exact Hlog]. }
  destruct (log_then "load client CA cert ok" 2 None w1') as [r w2] eqn:Hrun2.
  cbn [fst] in Hlog1. subst r. exists w2. split; [reflexivity|].
  apply log_then_inv in Hrun2 as (_ & Hs2 & _). rewrite Hs2. unfold w1'. cbn [srv].
  rewrite Hs.
  rewrite AddCert_again. reflexivity.
Qed.

(** X16. The defaults of [NewServer]. A new server that loads a key pair
    and starts, with no [Config] in between, asks [tls.Listen] for tcp on
    127.0.0.1:9000 with [RequireAnyClientCert], that key pair, and the
    certificate of the key pair as the one trusted client CA; and since
    the default level is 0 nothing is written. *)
Theorem NewServer_defaults (cert key : bytes) (kp : tls_Certificate)
    (ca : x509_Certificate) :
  X509KeyPair cert key = inl kp ->
  Certificate kp <> [] ->
  first_certificate cert = Some ca ->
  binds (trace (after_all [CallLoadKeyPair cert key; CallStart] fresh)) =
    [("tcp", "127.0.0.1:9000",
      {| ClientAuth := RequireAnyClientCert;
         Certificates := [kp];
         ClientCAs := Some {[ ca ]} |})] /\
  written (trace (after_all [CallLoadKeyPair cert key; CallStart] fresh)) = [].
Proof.
  intros Hkp Hc Hca. apply first_certificate_inv in Hca as (blk & Hblk & Hparse).
  destruct (options NewServer) as [o0|] eqn:Ho0; [|discriminate].
  assert (HL : LogLevel o0 = 0) by (injection Ho0 as <-; reflexivity).
  assert (HA : listen_address o0 = "127.0.0.1:9000") by (injection Ho0 as <-; reflexivity).
  assert (HT : TLSAuthType o0 = RequireAnyClientCert) by (injection Ho0 as <-; reflexivity).
  cbn [after_all foldl].
  assert (Hw1 : after (CallLoadKeyPair cert key) fresh = with_pair_and_pool kp ca fresh).
  { unfold after. rewrite LoadKeyPair_run, Hkp, Hblk, Hparse.
    rewrite (log_then_silent _ _ _ _ o0); [reflexivity|exact Ho0|exact HL]. }
  rewrite Hw1. set (w1 := with_pair_and_pool kp ca fresh).
  assert (Ho : options (srv w1) = Some o0) by exact Ho0.
  split.
  - rewrite after_binds. unfold listen_call. rewrite Ho.
    change (certs_Cert (srv w1)) with kp.
    destruct (Certificate kp) as [|leaf chain] eqn:Hchain; [contradiction|].
    cbn [app binds omap list_omap trace w1 with_pair_and_pool fresh].
    unfold listen_config. cbn [srv w1 with_pair_and_pool set_IsSet set_Pool set_Cert
                                 certs_Cert certs_pool_Pool].
    rewrite first_pool, HA, HT. reflexivity.
  - destruct (after_trace CallStart w1) as (msgs & -> & [_ Hm]).
    rewrite !written_app, written_library_call.
    assert (Hq : log_lines msgs (srv w1) = []).
    { clear -Ho HL. induction msgs as [|m msgs IH]; [reflexivity|].
      unfold log_lines. cbn [fmap list_fmap concat]. fold (log_lines msgs (srv w1)).
      rewrite IH. unfold log_line. rewrite Ho, HL.
      destruct (logDestination (srv w1)); reflexivity. }
    rewrite Hq. reflexivity.
Qed.

End Operations.

(** ** The further properties at work on the small library *)

(** A server at level 2 that loaded alice's key pair and started, call by
    call from a new server. *)
Lemma Sample_started_reachable :
  @reachable Sample.library (@after Sample.library CallStart Sample.loaded).
Proof.
  apply reachable_after.
  change Sample.loaded with
    (@after Sample.library (CallLoadKeyPair Sample.alice_cert Sample.alice_key)
       (@after Sample.library (CallConfig (Some (Sample.options_at 2))) fresh)).
  apply reachable_after, reachable_after, reachable_fresh.
Qed.

(** X3 at level 3: an [Accept] on a listener the network does not know
    writes its error line or nothing, and nothing else. *)
Lemma Accept_error_at_level_3 :
  let w := {| srv := set_listener (Some {| listener_id := 7 |}) (srv (Sample.server_at 3));
              trace := [] |} in
  options (srv w) = Some (Sample.options_at 3) /\
  2 < LogLevel (Sample.options_at 3) /\
  (written (trace (@after Sample.library CallAccept w)) = written (trace w) \/
   (CallAccept = CallAccept /\ LogLevel (Sample.options_at 3) = 3 /\
    exists d e, logDestination (srv w) = Some d /\
      written (trace (@after Sample.library CallAccept w)) =
        written (trace w) ++
        [(d, "herots srv: " +:+ ("accept conn error: " +:+ e) +:+ LF)])).
Proof.
  cbv zeta. split; [reflexivity|]. split; [reflexivity|].
  exact (@above_level_2_only_accept_errors Sample.library CallAccept
           {| srv := set_listener (Some {| listener_id := 7 |}) (srv (Sample.server_at 3));
              trace := [] |}
           (Sample.options_at 3) eq_refl eq_refl).
Defined.

(** X5: two starts of the loaded server ask for 127.0.0.1:9000 twice. *)
Lemma Start_twice_on_sample :
  Certificate (certs_Cert (srv Sample.loaded)) = [list_byte_of_string "0alice"] /\
  options (srv Sample.loaded) = Some (Sample.options_at 2) /\
  (binds (trace (@after Sample.library CallStart
                   (@after Sample.library CallStart Sample.loaded)))).*1 =
    [("tcp", "127.0.0.1:9000"); ("tcp", "127.0.0.1:9000")].
Proof.
  split; [reflexivity|]. split; [reflexivity|].
  destruct (@Start_twice_listens_twice Sample.library Sample.loaded (Sample.options_at 2))
    as [Hb _]; [discriminate|reflexivity|].
  rewrite Hb. reflexivity.
Defined.

(** X6: after the start the server holds the listener [tls.Listen] handed
    out. *)
Lemma listener_of_started_sample :
  listener (srv (@after Sample.library CallStart Sample.loaded)) =
    last (handed_out (trace (@after Sample.library CallStart Sample.loaded))) /\
  last (handed_out (trace (@after Sample.library CallStart Sample.loaded))) =
    Some {| listener_id := 1 |}.
Proof.
  split; [|vm_compute; reflexivity].
  exact (proj1 (@listener_is_last_handed_out Sample.library _ Sample_started_reachable)).
Defined.

(** X7: the one call of [tls.Listen] of the started server. *)
Lemma listen_calls_of_started_sample :
  is_Some (options (srv (@after Sample.library CallStart Sample.loaded))) /\
  length (binds (trace (@after Sample.library CallStart Sample.loaded))) = 1%nat /\
  Forall (fun b => b.1.1 = "tcp" /\ is_Some (ClientCAs b.2) /\
                   exists kp, Certificates b.2 = [kp] /\ Certificate kp <> [])
         (binds (trace (@after Sample.library CallStart Sample.loaded))).
Proof.
  destruct (@reachable_listen_calls Sample.library _ Sample_started_reachable) as [Ho Hb].
  split; [exact Ho|]. split; [reflexivity|exact Hb].
Defined.

(** X8: a [LoadKeyPair] with a key that does not match, on the loaded
    server: alice's key pair stays, and [Start] does not ask for one. *)
Lemma key_pair_stays_on_sample :
  Certificate (certs_Cert (srv Sample.loaded)) <> [] /\
  Certificate (certs_Cert (srv (@after_all Sample.library
     [CallLoadKeyPair Sample.alice_cert Sample.bob_key] Sample.loaded))) <> [] /\
  (@Start Sample.library (@after_all Sample.library
     [CallLoadKeyPair Sample.alice_cert Sample.bob_key] Sample.loaded)).1
    <> Ret (Some (Errorf1 NoKeyPairLoad)).
Proof.
  assert (Hc : Certificate (certs_Cert (srv Sample.loaded)) <> []) by discriminate.
  split; [exact Hc|].
  exact (@key_pair_is_never_removed Sample.library
           [CallLoadKeyPair Sample.alice_cert Sample.bob_key] Sample.loaded
           Sample_X509KeyPair_has_leaf Hc).
Defined.

(** X9: a CA certificate given to a new server. *)
Lemma AddClientCACert_on_new_server :
  certs_pool_Pool (srv fresh) = None /\
  is_Some (@first_certificate Sample.library Sample.root_x) /\
  (@AddClientCACert Sample.library Sample.root_x fresh).2 = fresh /\
  (@AddClientCACert Sample.library Sample.root_x fresh).1 = Panic.
Proof.
  destruct (@AddClientCACert_without_pool Sample.library Sample.root_x fresh eq_refl)
    as (Hw & _ & Hpanic).
  assert (Hca : is_Some (@first_certificate Sample.library Sample.root_x))
    by (eexists; reflexivity).
  split; [reflexivity|]. split; [exact Hca|]. split; [exact Hw|exact (Hpanic Hca)].
Defined.

(** X10: a record with port 0 and a writer of its own, given to a new
    server: port 9000 is stored, and the server still writes to the
    standard output. *)
Lemma Config_on_new_server :
  let o := {| Host := "0.0.0.0"; Port := 0; LogLevel := 2;
              LogDestination := Some (writer 5);
              TLSAuthType := RequireAndVerifyClientCert |} in
  let w' := (Config (Some o) fresh).2 in
  Config (Some o) fresh = (Ret (), w') /\
  options (srv w') = Some (set_Port 9000 o) /\
  logDestination (srv w') = Some os_Stdout.
Proof.
  cbv zeta.
  set (o := {| Host := "0.0.0.0"; Port := 0; LogLevel := 2;
               LogDestination := Some (writer 5);
               TLSAuthType := RequireAndVerifyClientCert |}).
  assert (Hrun : Config (Some o) fresh = (Ret (), (Config (Some o) fresh).2))
    by (vm_compute; reflexivity).
  destruct (Config_stores o fresh _ Hrun) as (Ho & _ & Hd & _).
  split; [exact Hrun|]. split; [exact Ho|exact Hd].
Defined.

(** X11: the started server accepts a connection and logs its address. *)
Lemma Accept_on_started_sample :
  let w := @after Sample.library CallStart Sample.loaded in
  let c := {| conn_id := 3; RemoteAddr := "192.0.2.7:40312" |} in
  listener (srv w) = Some {| listener_id := 1 |} /\
  @Listener_Accept Sample.library (trace w) {| listener_id := 1 |} = (Some c, None) /\
  exists w', @Accept Sample.library w = (Ret (Some c, None), w') /\
    srv w' = srv w /\
    written (trace w') =
      written (trace w) ++
      [(os_Stdout, "herots srv: " +:+ ("accepted conn from " +:+ "192.0.2.7:40312") +:+ LF)].
Proof.
  cbv zeta. set (w := @after Sample.library CallStart Sample.loaded).
  assert (Hl : listener (srv w) = Some {| listener_id := 1 |}) by (vm_compute; reflexivity).
  assert (Ha : @Listener_Accept Sample.library (trace w) {| listener_id := 1 |} =
               (Some {| conn_id := 3; RemoteAddr := "192.0.2.7:40312" |}, None))
    by (vm_compute; reflexivity).
  assert (Ho : options (srv w) = Some (Sample.options_at 2)) by (vm_compute; reflexivity).
  assert (Hd : logDestination (srv w) = Some os_Stdout) by (vm_compute; reflexivity).
  split; [exact Hl|]. split; [exact Ha|].
  exact (@Accept_returns_connection Sample.library w _ _ _ _ Hl Ha Ho Hd).
Defined.

(** X12: the error of a [LoadKeyPair] with a key that does not match. *)
Lemma error_of_mismatched_pair :
  @error_of Sample.library (CallLoadKeyPair Sample.alice_cert Sample.bob_key) fresh =
    Some (Errorf2 LoadKeyPairError "tls: private key does not match public key") /\
  (exists text,
     Errorf2 LoadKeyPairError "tls: private key does not match public key" = text +:+ LF) /\
  exists err, Errorf2 LoadKeyPairError "tls: private key does not match public key" =
              LoadKeyPairError +:+ ": " +:+ err +:+ LF.
Proof.
  assert (He : @error_of Sample.library
                 (CallLoadKeyPair Sample.alice_cert Sample.bob_key) fresh =
               Some (Errorf2 LoadKeyPairError "tls: private key does not match public key"))
    by (vm_compute; reflexivity).
  split; [exact He|].
  exact (@errors_by_operation Sample.library _ _ _ He).
Defined.

(** X13: the error of a second [Start] on an address in use names
    [Start]. *)
Lemma error_of_second_Start :
  let w := @after Sample.library CallStart Sample.loaded in
  @error_of Sample.library CallStart w =
    Some (Errorf2 StartServerError
            "listen tcp 127.0.0.1:9000: bind: address already in use") /\
  operation_named (Errorf2 StartServerError
                     "listen tcp 127.0.0.1:9000: bind: address already in use") =
    Some OpStart.
Proof.
  cbv zeta.
  assert (He : @error_of Sample.library CallStart
                 (@after Sample.library CallStart Sample.loaded) =
               Some (Errorf2 StartServerError
                       "listen tcp 127.0.0.1:9000: bind: address already in use"))
    by (vm_compute; reflexivity).
  split; [exact He|].
  exact (@error_names_operation Sample.library _ _ _ He).
Defined.

(** X15: the same CA added twice to the loaded server. *)
Lemma AddClientCACert_twice_on_sample :
  let w1 := (@AddClientCACert Sample.library Sample.root_x Sample.loaded).2 in
  @AddClientCACert Sample.library Sample.root_x Sample.loaded = (Ret None, w1) /\
  size <$> certs_pool_Pool (srv w1) = Some 2%nat /\
  exists w2, @AddClientCACert Sample.library Sample.root_x w1 = (Ret None, w2) /\
             srv w2 = srv w1.
Proof.
  cbv zeta.
  assert (Hrun : @AddClientCACert Sample.library Sample.root_x Sample.loaded =
                 (Ret None, (@AddClientCACert Sample.library Sample.root_x Sample.loaded).2))
    by (vm_compute; reflexivity).
  split; [exact Hrun|]. split; [vm_compute; reflexivity|].
  exact (@AddClientCACert_again Sample.library _ _ _ Hrun).
Defined.

(** X16: alice's key pair on a new server. *)
Lemma NewServer_defaults_with_alice :
  @X509KeyPair Sample.library Sample.alice_cert Sample.alice_key =
    inl {| Certificate := [list_byte_of_string "0alice"];
           PrivateKey := Some (list_byte_of_string "0alice") |} /\
  @first_certificate Sample.library Sample.alice_cert = Some (Sample.der "0alice") /\
  (binds (trace (@after_all Sample.library
     [CallLoadKeyPair Sample.alice_cert Sample.alice_key; CallStart] fresh))).*1 =
    [("tcp", "127.0.0.1:9000")] /\
  written (trace (@after_all Sample.library
     [CallLoadKeyPair Sample.alice_cert Sample.alice_key; CallStart] fresh)) = [].
Proof.
  split; [reflexivity|]. split; [reflexivity|].
  destruct (@NewServer_defaults Sample.library Sample.alice_cert Sample.alice_key
              _ (Sample.der "0alice") eq_refl) as [Hb Hw]; [discriminate|reflexivity|].
  split; [rewrite Hb; reflexivity|exact Hw].
Defined.
